(** * Negative-treatment extractor: the two command-line pipelines

    A shallow embedding of [extract_negative_treatments.py] (the id-based
    variant) and [legal_decision_negative_cases.py] (the slug-based
    variant), and the properties of their fetch / prompt / model-call /
    persist sequence.

    Both scripts are straight-line Python over four external facilities:
    the file system, the console, an HTTP client and the OpenAI client.
    They are embedded as computations in a state-and-exception monad over
    an explicit [World]; what the outside answers (the HTTP server, the
    model endpoint, the HTML-to-text library, the process environment) is
    read from an [Env].  The development starts where the [__main__] block
    of each script starts, after module initialisation; the module-level
    key check that comes before it is [load_api_key], and [process] puts
    the two together. *)

From Stdlib Require Import ZArith QArith Ascii.
From stdpp Require Import gmap strings list pretty.

Local Open Scope Z_scope.

(** ** Python runtime: values, exceptions, world *)

(** The line feed, written ["\n"] in the sources. *)
Definition nl : string := String (Ascii.ascii_of_nat 10) "".

(** Argument of [sys.exit]: an integer status or a message. *)
Inductive ExitArg :=
| ExitCode (n : Z)
| ExitMessage (msg : string).

(** The exceptions the two scripts can meet.  [SystemExit] derives from
    [BaseException] only; every other one derives from [Exception]. *)
Inductive Exc :=
| SystemExit (arg : ExitArg)
| UnboundLocalError (name : string)
| IndexError
| HTTPError (msg : string)
| RequestException (msg : string)
| OpenAIError (msg : string)
| FileNotFoundError (path : string)
| IsADirectoryError (path : string).

Definition is_Exception (e : Exc) : bool :=
  match e with
  | SystemExit _ => false
  | _ => true
  end.

Inductive Result (A : Type) :=
| Ok (a : A)
| Raise (e : Exc).
Arguments Ok {A} a.
Arguments Raise {A} e.

(** A node of the file system, keyed by the path string handed to the
    operating system. *)
Inductive FsNode :=
| RegularFile (content : string)
| Directory.

(** One role-tagged message of a model request. *)
Record Message := { role : string; content : string }.

(** The keyword arguments of [client.responses.create]. *)
Record Request := {
  req_model : string;
  req_input : list Message;
  req_temperature : Q;
  req_top_p : Q
}.

(** [requests.Response]: the attributes the scripts and
    [raise_for_status] read; [body] stands for [content] and [text]. *)
Record Response := {
  status_code : Z;
  reason : string;
  resp_url : string;
  body : string
}.

(** Requests that leave the process, in the order they are made. *)
Inductive Event :=
| HttpGet (url : string)
| ResponsesCreate (req : Request).

Record World := {
  fs : gmap string FsNode;
  stdout : list string;
  trace : list Event
}.

(** What the outside world answers. *)
Record Env := {
  (** [os.environ] *)
  environ : gmap string string;
  (** [requests.get(url)]: a transport failure, or the final response *)
  http_server : string -> string + Response;
  (** [OpenAI().responses.create(...)]: the [output_text] of the response,
      or [str(e)] of the [Exception] raised by the client *)
  model_endpoint : Request -> string + string;
  (** [BeautifulSoup(markup, 'html.parser').get_text(separator="\n", strip=True)] *)
  soup_get_text : string -> string
}.

Definition set_fs (f : gmap string FsNode) (w : World) : World :=
  {| fs := f; stdout := stdout w; trace := trace w |}.
Definition add_stdout (line : string) (w : World) : World :=
  {| fs := fs w; stdout := stdout w ++ [line]; trace := trace w |}.
Definition add_event (ev : Event) (w : World) : World :=
  {| fs := fs w; stdout := stdout w; trace := trace w ++ [ev] |}.

(** ** The monad *)

Definition M (A : Type) : Type := Env -> World -> Result A * World.

Definition ret {A} (a : A) : M A := fun _ w => (Ok a, w).

Definition bind {A B} (m : M A) (k : A -> M B) : M B :=
  fun E w =>
    match m E w with
    | (Ok a, w') => k a E w'
    | (Raise e, w') => (Raise e, w')
    end.

Definition raise {A} (e : Exc) : M A := fun _ w => (Raise e, w).

Notation "x <- c1 ;; c2" := (bind c1 (fun x => c2))
  (at level 100, c1 at next level, right associativity).
Notation "c1 ;; c2" := (bind c1 (fun _ => c2))
  (at level 100, right associativity).

(** [str(e)] of a caught exception. *)
Definition str_exc (e : Exc) : string :=
  match e with
  | SystemExit (ExitMessage m) => m
  | SystemExit (ExitCode _) => ""
  | UnboundLocalError n =>
      "cannot access local variable '" +:+ n +:+ "' where it is not associated with a value"
  | IndexError => "list index out of range"
  | HTTPError m => m
  | RequestException m => m
  | OpenAIError m => m
  | FileNotFoundError p => "[Errno 2] No such file or directory: '" +:+ p +:+ "'"
  | IsADirectoryError p => "[Errno 21] Is a directory: '" +:+ p +:+ "'"
  end.

(** Reads the environment. *)
Definition ask : M Env := fun E w => (Ok E, w).

(** [try: body  except Exception as e: handler(e)] *)
Definition try_except_Exception {A} (body : M A) (handler : Exc -> M A) : M A :=
  fun E w =>
    match body E w with
    | (Ok a, w') => (Ok a, w')
    | (Raise e, w') =>
        if is_Exception e then handler e E w' else (Raise e, w')
    end.

(** ** Library calls *)

Definition print (line : string) : M unit :=
  fun _ w => (Ok tt, add_stdout line w).

Definition sys_exit {A} (arg : ExitArg) : M A := raise (SystemExit arg).

(** [os.getenv(name, default)] *)
Definition os_getenv (name dflt : string) (E : Env) : string :=
  match environ E !! name with
  | Some v => v
  | None => dflt
  end.

Definition os_path_exists (path : string) : M bool :=
  fun _ w => (Ok (match fs w !! path with Some _ => true | None => false end), w).

Definition os_path_isdir (path : string) : M bool :=
  fun _ w => (Ok (match fs w !! path with Some Directory => true | _ => false end), w).

(** [os.path.join(a, b)] of [posixpath]: an absolute [b] discards [a]. *)
Definition os_path_join (a b : string) : string :=
  if String.prefix "/" b || bool_decide (a = "") then b
  else if String.prefix "/" (String.rev a) then a +:+ b
  else a +:+ "/" +:+ b.
Arguments os_path_join : simpl never.

(** [requests.get(url)] *)
Definition requests_get (url : string) : M Response :=
  fun E w =>
    match http_server E url with
    | inl msg => (Raise (RequestException msg), add_event (HttpGet url) w)
    | inr r => (Ok r, add_event (HttpGet url) w)
    end.

(** The local [http_error_msg] of [Response.raise_for_status]: set for
    a client error (4xx) and for a server error (5xx), empty otherwise. *)
Definition http_error_msg (r : Response) : string :=
  if (400 <=? status_code r) && (status_code r <? 500) then
    pretty (status_code r) +:+ " Client Error: " +:+ reason r
    +:+ " for url: " +:+ resp_url r
  else if (500 <=? status_code r) && (status_code r <? 600) then
    pretty (status_code r) +:+ " Server Error: " +:+ reason r
    +:+ " for url: " +:+ resp_url r
  else "".

(** [Response.raise_for_status()]: raises when [http_error_msg] is set. *)
Definition raise_for_status (r : Response) : M unit :=
  if negb (String.eqb (http_error_msg r) "")
  then raise (HTTPError (http_error_msg r))
  else ret tt.

(** [OpenAI().responses.create(model=..., input=..., ...).output_text] *)
Definition responses_create (req : Request) : M string :=
  fun E w =>
    match model_endpoint E req with
    | inl output_text => (Ok output_text, add_event (ResponsesCreate req) w)
    | inr msg => (Raise (OpenAIError msg), add_event (ResponsesCreate req) w)
    end.

(** An open text file: the path it was opened on. *)
Definition FileHandle := string.

(** [open(path, "w")]: creates or truncates. *)
Definition open_w (path : string) : M FileHandle :=
  fun _ w =>
    match fs w !! path with
    | Some Directory => (Raise (IsADirectoryError path), w)
    | _ => (Ok path, set_fs (<[path := RegularFile ""]> (fs w)) w)
    end.

(** [f.write(s)] on a handle opened for writing: appends at the end. *)
Definition file_write (f : FileHandle) (s : string) : M unit :=
  fun _ w =>
    let written := match fs w !! f with
                   | Some (RegularFile c) => c
                   | _ => ""
                   end in
    (Ok tt, set_fs (<[f := RegularFile (written +:+ s)]> (fs w)) w).

(** [open(path, "r", encoding="utf8")] followed by [f.read()].  Files
    hold text: the embedding sits above the byte encoding. *)
Definition read_text (path : string) : M string :=
  fun _ w =>
    match fs w !! path with
    | Some (RegularFile c) => (Ok c, w)
    | Some Directory => (Raise (IsADirectoryError path), w)
    | None => (Raise (FileNotFoundError path), w)
    end.

(** Reading a local variable that may not have been bound yet. *)
Definition load_local {A} (name : string) (v : option A) : M A :=
  match v with
  | Some a => ret a
  | None => raise (UnboundLocalError name)
  end.

(** Exit status of the process for the outcome of the [__main__] block. *)
Definition exit_status {A} (r : Result A) : Z :=
  match r with
  | Ok _ => 0
  | Raise (SystemExit (ExitCode n)) => n
  | Raise _ => 1
  end.

(** [BeautifulSoup(markup, 'html.parser').get_text(separator="\n", strip=True)] *)
Definition BeautifulSoup_get_text (markup : string) : M string :=
  fun E w => (Ok (soup_get_text E markup), w).

(** ** [extract_negative_treatments.py]: the id-based variant *)

Module extract_negative_treatments.

(** [model = os.getenv("CHAT_GPT_MODEL", "gpt-3.5-turbo")], evaluated
    when the module is loaded. *)
Definition model (E : Env) : string :=
  os_getenv "CHAT_GPT_MODEL" "gpt-3.5-turbo" E.

(** The local [url] of [fetch_opinion]. *)
Definition url (id : string) : string :=
  "https://scholar.google.com/scholar_case?case=" +:+ id.

Definition fetch_opinion (id : string) : M string :=
  response <- requests_get (url id) ;;
  raise_for_status response ;;
  opinion_text <- BeautifulSoup_get_text (body response) ;;
  ret opinion_text.

(** The adjacent string literals of [prompt] up to the opinion text. *)
Definition instructions : string :=
  "You are an expert legal analyst."
  +:+ "A case is treated negatively if the opinion expresses disapproval or disagreement with the case, or ignores it as precedent."
  +:+ "Below is the text of a legal opinion that references other cases."
  +:+ "DO NOT CONSIDER THE OPINION ITSELF AS A REFERENCED CASE AND DO NOT RETURN IT IN THE RESULTS."
  +:+ "Identify any of the referenced cases that are treated negatively in the opinion."
  +:+ "For each of such cases, determine the nature of the treatment, quote the text of the negative treatment, and give an explanation of why the treatment was determined to be negative."
  +:+ "If there are cases that are treated negatively, return a JSON encoded list where each negatively-treated case is a JSON object with the following keys: ['caseName', 'jurisdiction', 'citation', 'nature', 'quotedText', 'explanation']."
  +:+ "If there are no cases treated negatively, respond EXACTLY with '[]'."
  +:+ nl
  +:+ "Legal Opinion Text:" +:+ nl.

(** The local [prompt] of [get_negative_treatments]. *)
Definition prompt (opinion_text : string) : string :=
  instructions +:+ opinion_text +:+ nl.

(** The [input=[...]] list of the request. *)
Definition input (prompt : string) : list Message :=
  [ {| role := "system"; content := "You are a helpful lawyer." |};
    {| role := "system"; content := "Your response will consist ONLY of a list." |};
    {| role := "system"; content := "You will NOT wrap the response with JSON md markers." |};
    {| role := "system"; content := "The response JSON will have NO top-level keys." |};
    {| role := "user"; content := prompt |} ].

(** The keyword arguments of [client.responses.create]. *)
Definition request (model opinion_text : string) : Request :=
  {| req_model := model;
     req_input := input (prompt opinion_text);
     req_temperature := (1 # 10)%Q;
     req_top_p := 1%Q |}.

Definition get_negative_treatments (opinion_text : string) : M string :=
  try_except_Exception
    (E <- ask ;;
     responses_create (request (model E) opinion_text))
    (fun e => sys_exit (ExitMessage ("Error calling OpenAI API: " +:+ str_exc e))).

(** In [main] the name [f] is local (it is bound by the [with] of the
    second branch), so the first branch reads it unbound. *)
Definition main (id : string) : M unit :=
  print ("Fetching legal decision text with id: " +:+ id) ;;
  opinion_text <- fetch_opinion id ;;
  print "Analyzing legal decision for negative case treatment using ChatGPT..." ;;
  treatments <- get_negative_treatments opinion_text ;;
  if String.eqb treatments "[]" then
    print "NO NEGATIVELY-TREATED CASES FOUND!" ;;
    f <- load_local "f" (None : option FileHandle) ;;
    file_write f "" ;;
    ret tt
  else
    f <- open_w "results.json" ;;
    file_write f treatments ;;
    print (nl +:+ "FOUND NEGATIVELY-TREATED CASE(S) (see 'results.json'):") ;;
    print treatments ;;
    ret tt.

(** The [if __name__ == "__main__":] block; [argv] is [sys.argv]. *)
Definition script (argv : list string) : M unit :=
  if negb (length argv =? 2)%nat then
    print "Usage: python extract_negative_treatments.py <id>" ;;
    sys_exit (ExitCode 1)
  else
    id <- match argv !! 1%nat with
          | Some a => ret a
          | None => raise IndexError
          end ;;
    main id.

End extract_negative_treatments.

(** ** [legal_decision_negative_cases.py]: the slug-based variant *)

Module legal_decision_negative_cases.

(** Defined by the script, called nowhere in it. *)
Definition fetch_legal_decision (slug : string) : M string :=
  response <- requests_get ("https://casetext/" +:+ slug +:+ "/html") ;;
  raise_for_status response ;;
  opinion_text <- BeautifulSoup_get_text (body response) ;;
  ret opinion_text.

Definition get_file_by_slug (slug : string) : M string :=
  let test_data_dir := "test_data" in
  missing <- (e <- os_path_exists test_data_dir ;;
              if negb e then ret true
              else d <- os_path_isdir test_data_dir ;; ret (negb d)) ;;
  (if missing : bool then
     sys_exit (ExitMessage ("Error: The directory '" +:+ test_data_dir
                            +:+ "' does not exist or is not a directory."))
   else ret tt) ;;
  let expected_file := slug +:+ ".html" in
  let file_path := os_path_join test_data_dir expected_file in
  e <- os_path_exists file_path ;;
  (if negb e then
     sys_exit (ExitMessage ("Error: No HTML file matching slug '" +:+ slug
                            +:+ "' found in '" +:+ test_data_dir +:+ "'."))
   else ret tt) ;;
  ret file_path.

(** The adjacent string literals of [prompt] up to the opinion text. *)
Definition instructions : string :=
  "You are an expert legal analyst."
  +:+ "A case is treated negatively if the opinion expresses disapproval or disagreement with the case, or ignores it as precedent."
  +:+ "Below is the text of a legal opinion that references other cases."
  +:+ "DO NOT CONSIDER THE OPINION ITSELF AS A REFERENCED CASE AND DO NOT RETURN IT IN THE RESULTS."
  +:+ "Identify any of the referenced cases that are treated negatively in the opinion."
  +:+ "For each of such cases, determine the nature of the treatment, quote the text of the negative treatment, and give an explanation of why the treatment is negative."
  +:+ "If there are cases that are treated negatively, return a JSON encoded list where each negatively-treated case is a JSON object with the following keys: ['caseName', 'jurisdiction', 'citation', 'nature', 'quotedText', 'explanation']."
  +:+ "If there are no cases treated negatively, respond EXACTLY with '[]'."
  +:+ nl
  +:+ "Legal Opinion Text:" +:+ nl.

(** The local [prompt] of [get_negative_treatments]. *)
Definition prompt (opinion_text : string) : string :=
  instructions +:+ opinion_text +:+ nl.

(** The [input=[...]] list of the request. *)
Definition input (prompt : string) : list Message :=
  [ {| role := "system"; content := "You are a helpful lawyer." |};
    {| role := "system"; content := "Your response will consist ONLY of a list." |};
    {| role := "system"; content := "You will NOT wrap the response with JSON md markers." |};
    {| role := "system"; content := "The response JSON will have NO top-level keys." |};
    {| role := "user"; content := prompt |} ].

(** The keyword arguments of [client.responses.create]. *)
Definition request (opinion_text : string) : Request :=
  {| req_model := "gpt-3.5-turbo";
     req_input := input (prompt opinion_text);
     req_temperature := (1 # 10)%Q;
     req_top_p := 1%Q |}.

Definition get_negative_treatments (opinion_text : string) : M string :=
  try_except_Exception
    (responses_create (request opinion_text))
    (fun e => sys_exit (ExitMessage ("Error calling OpenAI API: " +:+ str_exc e))).

Definition extract_text_from_html (file_path : string) : M string :=
  html_content <- read_text file_path ;;
  text <- BeautifulSoup_get_text html_content ;;
  ret text.

Definition main (slug : string) : M unit :=
  print ("Fetching legal decision text for slug: " +:+ slug) ;;
  file <- get_file_by_slug slug ;;
  opinion_text <- extract_text_from_html file ;;
  print "Analyzing legal decision for negative case treatment using ChatGPT..." ;;
  treatments <- get_negative_treatments opinion_text ;;
  if String.eqb treatments "[]" then
    print "NO NEGATVIELY-TREATED CASES FOUND!" ;;
    ret tt
  else
    f <- open_w "results.json" ;;
    file_write f treatments ;;
    print (nl +:+ "FOUND NEGATIVELY-TREATED CASE(S) (see 'results.json'):") ;;
    print treatments ;;
    ret tt.

(** The [if __name__ == "__main__":] block; [argv] is [sys.argv]. *)
Definition script (argv : list string) : M unit :=
  if negb (length argv =? 2)%nat then
    print "Usage: python legal_decision_negative_cases.py <slug>" ;;
    sys_exit (ExitCode 1)
  else
    slug_input <- match argv !! 1%nat with
                  | Some a => ret a
                  | None => raise IndexError
                  end ;;
    main slug_input.

End legal_decision_negative_cases.

Module ById := extract_negative_treatments.
Module BySlug := legal_decision_negative_cases.

(** ** The two variants side by side *)

Inductive Variant := IdBased | SlugBased.

Definition main_of (v : Variant) : string -> M unit :=
  match v with
  | IdBased => ById.main
  | SlugBased => BySlug.main
  end.

(** The request a variant sends for an opinion text. *)
Definition request_of (v : Variant) (E : Env) (opinion_text : string) : Request :=
  match v with
  | IdBased => ById.request (ById.model E) opinion_text
  | SlugBased => BySlug.request opinion_text
  end.

(** The input resolver of a variant finds the raw document [html] for
    the argument: the GET is answered with a status that
    [raise_for_status] lets through, or the fixture file is there. *)
Definition resolves (v : Variant) (E : Env) (w : World) (arg html : string) : Prop :=
  match v with
  | IdBased =>
      exists r,
        http_server E (ById.url arg) = inr r
        /\ body r = html
        /\ (status_code r < 400 \/ 600 <= status_code r)
  | SlugBased =>
      fs w !! "test_data" = Some Directory
      /\ fs w !! os_path_join "test_data" (arg +:+ ".html") = Some (RegularFile html)
  end.

(** Console lines of a run up to the model call. *)
Definition banner (v : Variant) (arg : string) : list string :=
  [ match v with
    | IdBased => "Fetching legal decision text with id: " +:+ arg
    | SlugBased => "Fetching legal decision text for slug: " +:+ arg
    end;
    "Analyzing legal decision for negative case treatment using ChatGPT..." ].

(** Requests of a run up to and including the model call. *)
Definition requests_of (v : Variant) (E : Env) (arg opinion_text : string) : list Event :=
  match v with
  | IdBased => [HttpGet (ById.url arg); ResponsesCreate (request_of v E opinion_text)]
  | SlugBased => [ResponsesCreate (request_of v E opinion_text)]
  end.

(** The line that reports an empty result. *)
Definition nothing_found (v : Variant) : string :=
  match v with
  | IdBased => "NO NEGATIVELY-TREATED CASES FOUND!"
  | SlugBased => "NO NEGATVIELY-TREATED CASES FOUND!"
  end.

(** ** The stages of [main] *)

Definition get_negative_treatments_of (v : Variant) : string -> M string :=
  match v with
  | IdBased => ById.get_negative_treatments
  | SlugBased => BySlug.get_negative_treatments
  end.

(** The resolver and extractor stages of [main], console line included. *)
Definition opinion_stage (v : Variant) (arg : string) : M string :=
  match v with
  | IdBased =>
      print ("Fetching legal decision text with id: " +:+ arg) ;;
      ById.fetch_opinion arg
  | SlugBased =>
      print ("Fetching legal decision text for slug: " +:+ arg) ;;
      file <- BySlug.get_file_by_slug arg ;;
      BySlug.extract_text_from_html file
  end.

(** The result writer of [main]: the [if treatments == "[]"] statement. *)
Definition result_writer (v : Variant) (treatments : string) : M unit :=
  match v with
  | IdBased =>
      if String.eqb treatments "[]" then
        print "NO NEGATIVELY-TREATED CASES FOUND!" ;;
        f <- load_local "f" (None : option FileHandle) ;;
        file_write f "" ;;
        ret tt
      else
        f <- open_w "results.json" ;;
        file_write f treatments ;;
        print (nl +:+ "FOUND NEGATIVELY-TREATED CASE(S) (see 'results.json'):") ;;
        print treatments ;;
        ret tt
  | SlugBased =>
      if String.eqb treatments "[]" then
        print "NO NEGATVIELY-TREATED CASES FOUND!" ;;
        ret tt
      else
        f <- open_w "results.json" ;;
        file_write f treatments ;;
        print (nl +:+ "FOUND NEGATIVELY-TREATED CASE(S) (see 'results.json'):") ;;
        print treatments ;;
        ret tt
  end.

Definition found_line : string :=
  nl +:+ "FOUND NEGATIVELY-TREATED CASE(S) (see 'results.json'):".

(** ** Observations on runs *)

(** The model identifiers of the model requests in a trace. *)
Definition models_requested (evs : list Event) : list string :=
  omap (fun ev => match ev with
                  | ResponsesCreate req => Some (req_model req)
                  | HttpGet _ => None
                  end) evs.

Definition instructions_of (v : Variant) : string :=
  match v with
  | IdBased => ById.instructions
  | SlugBased => BySlug.instructions
  end.

(** The contents of the user-role messages of a request. *)
Definition user_prompts (req : Request) : list string :=
  content <$> filter (fun m => role m = "user") (req_input req).

(** The path of the entry named [slug + ".html"] in the fixture
    directory. *)
Definition fixture_path (slug : string) : string :=
  "test_data/" +:+ slug +:+ ".html".

(** ** Statements under test *)

(** The invariant of C3 as it is worded: after the run results.json
    holds exactly the non-sentinel text the model returned in the run, or
    it is absent, or it is empty. *)
Definition result_file_invariant (v : Variant) (E : Env) (w : World) (arg : string) : Prop :=
  let w' := snd (main_of v arg E w) in
  (exists text t,
     ResponsesCreate (request_of v E text) ∈ trace w'
     /\ model_endpoint E (request_of v E text) = inl t
     /\ t <> "[]"
     /\ fs w' !! "results.json" = Some (RegularFile t))
  \/ fs w' !! "results.json" = None
  \/ fs w' !! "results.json" = Some (RegularFile "").

(** The run ends in an exception right after the GET: no model request,
    no change to the file system. *)
Definition stops_before_model (E : Env) (w : World) (id : string) : Prop :=
  let run := ById.main id E w in
  (exists e, fst run = Raise e)
  /\ trace (snd run) = trace w ++ [HttpGet (ById.url id)]
  /\ fs (snd run) = fs w.

(** C4 as it is worded: any answer with a status outside 200..299 stops
    the run before the model. *)
Definition non_2xx_stops (E : Env) (w : World) (id : string) : Prop :=
  forall r,
    http_server E (ById.url id) = inr r ->
    ~ (200 <= status_code r < 300) ->
    stops_before_model E w id.

(** C6 as it is worded: the model identifier of the request is the value
    of CHAT_GPT_MODEL when that variable is set, and the default
    otherwise. *)
Definition model_follows_environment (v : Variant) (E : Env) (w : World) (text : string) : Prop :=
  models_requested (trace (snd (get_negative_treatments_of v text E w)))
  = models_requested (trace w) ++ [os_getenv "CHAT_GPT_MODEL" "gpt-3.5-turbo" E].

(** C7 as it is worded: the resolver returns the path of the entry of the
    fixture directory named after the slug when the directory and the
    entry exist, and exits with a message otherwise. *)
Definition resolves_in_fixture_directory (E : Env) (w : World) (slug : string) : Prop :=
  let found := fs w !! "test_data" = Some Directory /\ is_Some (fs w !! fixture_path slug) in
  (found -> BySlug.get_file_by_slug slug E w = (Ok (fixture_path slug), w))
  /\ (~ found ->
      exists msg, BySlug.get_file_by_slug slug E w = (Raise (SystemExit (ExitMessage msg)), w)).

(** ** Fixtures *)

Definition dq : string := String (Ascii.ascii_of_nat 34) "".

Definition json_field (key value : string) : string :=
  dq +:+ key +:+ dq +:+ ":" +:+ dq +:+ value +:+ dq.

(** The one-record answer of the specification's example. *)
Definition roe_json : string :=
  "[{" +:+ json_field "caseName" "Roe v. Wade"
  +:+ "," +:+ json_field "jurisdiction" "US"
  +:+ "," +:+ json_field "citation" "410 U.S. 113"
  +:+ "," +:+ json_field "nature" "overruled"
  +:+ "," +:+ json_field "quotedText" "..."
  +:+ "," +:+ json_field "explanation" "..."
  +:+ "}]".

(** Another answer, for a second run. *)
Definition lochner_json : string :=
  "[{" +:+ json_field "caseName" "Lochner v. New York" +:+ "}]".

Definition page : string := "<html><body><p>Opinion of the Court</p></body></html>".

(** A stub environment: every GET is answered with [status] and [page],
    every model request with [answer], and the extractor with a fixed
    text. *)
Definition stub_env (vars : gmap string string) (status : Z) (answer : string + string) : Env :=
  {| environ := vars;
     http_server := fun u => inr {| status_code := status; reason := "";
                                    resp_url := u; body := page |};
     model_endpoint := fun _ => answer;
     soup_get_text := fun _ => "Opinion of the Court" |}.

Definition empty_world : World := {| fs := ∅; stdout := []; trace := [] |}.

(** The fixture directory with [foo.html] in it. *)
Definition fixture_world : World :=
  {| fs := {[ "test_data" := Directory;
              "test_data/foo.html" := RegularFile page ]};
     stdout := [];
     trace := [] |}.

(** The same, with a result file left by an earlier run. *)
Definition rerun_world : World :=
  {| fs := <["results.json" := RegularFile roe_json]> (fs fixture_world);
     stdout := [];
     trace := [] |}.

(** The fixture directory, and an HTML file elsewhere. *)
Definition outside_world : World :=
  {| fs := {[ "test_data" := Directory;
              "/tmp/a.html" := RegularFile page ]};
     stdout := [];
     trace := [] |}.

(** ** The scripts as processes *)

Definition script_of (v : Variant) : list string -> M unit :=
  match v with
  | IdBased => ById.script
  | SlugBased => BySlug.script
  end.

(** The line printed when the argument count is wrong. *)
Definition usage_line (v : Variant) : string :=
  match v with
  | IdBased => "Usage: python extract_negative_treatments.py <id>"
  | SlugBased => "Usage: python legal_decision_negative_cases.py <slug>"
  end.

(** The first console line of [main]. *)
Definition fetching_line (v : Variant) (arg : string) : string :=
  match v with
  | IdBased => "Fetching legal decision text with id: " +:+ arg
  | SlugBased => "Fetching legal decision text for slug: " +:+ arg
  end.

(** The requests of the resolver of a variant: the GET, or none. *)
Definition resolver_requests (v : Variant) (arg : string) : list Event :=
  match v with
  | IdBased => [HttpGet (ById.url arg)]
  | SlugBased => []
  end.

(** The URLs of the GETs in a trace. *)
Definition urls_fetched (evs : list Event) : list string :=
  omap (fun ev => match ev with
                  | HttpGet url => Some url
                  | ResponsesCreate _ => None
                  end) evs.

(** The prompt of the [input] call at the top of both scripts. *)
Definition api_key_prompt : string :=
  "OPENAI_API_KEY is not set. Please enter your OpenAI API key: ".

(** [input(prompt)]: writes the prompt on the console (without a line
    feed, which the console list does not record) and reads one line of
    standard input; [None] is [EOFError]. *)
Definition builtins_input (prompt : string) (stdin : list string) (w : World)
  : option (string * list string) * World :=
  match stdin with
  | line :: rest => (Some (line, rest), add_stdout prompt w)
  | [] => (None, add_stdout prompt w)
  end.

(** What the module-level statements of a script leave: the value of
    [openai.api_key] and the rest of standard input, or an [EOFError]
    that ends the process before the [__main__] block. *)
Inductive Import :=
| Imported (api_key : string) (stdin : list string)
| ImportEOFError.

(** [openai.api_key = os.getenv("OPENAI_API_KEY")] and the [if
    openai.api_key is None:] statement after it, the same in both
    scripts. *)
Definition load_api_key (stdin : list string) (E : Env) (w : World) : Import * World :=
  match environ E !! "OPENAI_API_KEY" with
  | Some key => (Imported key stdin, w)
  | None =>
      match builtins_input api_key_prompt stdin w with
      | (Some (value, rest), w') => (Imported value rest, w')
      | (None, w') => (ImportEOFError, w')
      end
  end.

(** How a process ends: at import, or with the outcome of the
    [__main__] block. *)
Inductive ProcessEnd :=
| DiedAtImport
| Ended (r : Result unit).

(** A script run as a program: the module-level statements, then the
    [__main__] block. *)
Definition process (v : Variant) (argv stdin : list string) (E : Env) (w : World)
  : ProcessEnd * World :=
  match load_api_key stdin E w with
  | (Imported _ _, w') =>
      let (r, w'') := script_of v argv E w' in (Ended r, w'')
  | (ImportEOFError, w') => (DiedAtImport, w')
  end.

(** ** Outcomes in closed form *)

(** The outcome of [requests.get(url)], [raise_for_status()] and the
    text extraction, as both fetch functions chain them. *)
Definition fetch_outcome (E : Env) (url : string) : Result string :=
  match http_server E url with
  | inl msg => Raise (RequestException msg)
  | inr r =>
      if (400 <=? status_code r) && (status_code r <? 600)
      then Raise (HTTPError (http_error_msg r))
      else Ok (soup_get_text E (body r))
  end.

(** The outcome of the resolver and extractor stages of [main]. *)
Definition resolve_outcome (v : Variant) (E : Env) (w : World) (arg : string) : Result string :=
  match v with
  | IdBased => fetch_outcome E (ById.url arg)
  | SlugBased =>
      let path := os_path_join "test_data" (arg +:+ ".html") in
      match fs w !! "test_data", fs w !! path with
      | Some Directory, Some (RegularFile html) => Ok (soup_get_text E html)
      | Some Directory, Some Directory => Raise (IsADirectoryError path)
      | Some Directory, None =>
          Raise (SystemExit (ExitMessage
            ("Error: No HTML file matching slug '" +:+ arg +:+ "' found in 'test_data'.")))
      | _, _ =>
          Raise (SystemExit (ExitMessage
            "Error: The directory 'test_data' does not exist or is not a directory."))
      end
  end.

(** The world once the resolver and extractor stages are over. *)
Definition after_resolver (v : Variant) (arg : string) (w : World) : World :=
  {| fs := fs w;
     stdout := stdout w ++ [fetching_line v arg];
     trace := trace w ++ resolver_requests v arg |}.

(** The world once the model has been asked about [text]. *)
Definition after_model (v : Variant) (E : Env) (arg text : string) (w : World) : World :=
  {| fs := fs w;
     stdout := stdout w ++ banner v arg;
     trace := trace w ++ requests_of v E arg text |}.

(** ** More fixtures *)

(** [test_data] is there, but as a regular file. *)
Definition flat_world : World :=
  {| fs := {[ "test_data" := RegularFile "" ]}; stdout := []; trace := [] |}.

(** The entry [foo.html] of the fixture directory is itself a directory. *)
Definition nested_world : World :=
  {| fs := {[ "test_data" := Directory; "test_data/foo.html" := Directory ]};
     stdout := [];
     trace := [] |}.

(** The fixture directory, and a directory where the result file goes. *)
Definition blocked_world : World :=
  {| fs := <["results.json" := Directory]> (fs fixture_world);
     stdout := [];
     trace := [] |}.

(** A server that cannot be reached. *)
Definition offline_env : Env :=
  {| environ := ∅;
     http_server := fun _ => inl "Connection refused";
     model_endpoint := fun _ => inl roe_json;
     soup_get_text := fun _ => "Opinion of the Court" |}.

(** ** Lemmas on the monad *)

Section Bind.
Context {A B : Type} (m : M A) (k : A -> M B) (E : Env) (w w' : World).

Lemma bind_ok (a : A) :
  m E w = (Ok a, w') -> (x <- m ;; k x) E w = k a E w'.
Proof. intros H. unfold bind. now rewrite H. Qed.

Lemma bind_raise (e : Exc) :
  m E w = (Raise e, w') -> (x <- m ;; k x) E w = (Raise e, w').
Proof. intros H. unfold bind. now rewrite H. Qed.

End Bind.

(** ** Lemmas on strings and paths *)

Lemma append_nonempty_r (s t : string) : t <> "" -> s +:+ t <> "".
Proof.
  intros Ht H. destruct s as [|a s]; [exact (Ht H)|discriminate H].
Qed.

Lemma string_length_app (s t : string) :
  String.length (s +:+ t) = (String.length s + String.length t)%nat.
Proof.
  induction s as [|a s IH]; [reflexivity|].
  change (String a s +:+ t) with (String a (s +:+ t)).
  simpl. now rewrite IH.
Qed.

Lemma substring_skip (p s : string) (n : nat) :
  String.substring (String.length p) n (p +:+ s) = String.substring 0 n s.
Proof.
  induction p as [|a p IH]; [reflexivity|].
  change (String a p +:+ s) with (String a (p +:+ s)). simpl. exact IH.
Qed.

Lemma substring_take (t s : string) :
  String.substring 0 (String.length t) (t +:+ s) = t.
Proof.
  induction t as [|a t IH].
  - destruct s; reflexivity.
  - change (String a t +:+ s) with (String a (t +:+ s)). simpl. now rewrite IH.
Qed.

Lemma prefix_slash_cons (a : Ascii.ascii) (s : string) :
  String.prefix "/" (String a s) = if Ascii.ascii_dec "/"%char a then true else false.
Proof.
  change (String.prefix "/" (String a s))
    with (if Ascii.ascii_dec "/"%char a then String.prefix "" s else false).
  destruct (Ascii.ascii_dec "/"%char a); [|reflexivity]. destruct s; reflexivity.
Qed.

Lemma prefix_slash_append (s t : string) :
  String.prefix "/" t = false ->
  String.prefix "/" (s +:+ t) = String.prefix "/" s.
Proof.
  intros Hp. destruct s as [|a s].
  - exact Hp.
  - change (String a s +:+ t) with (String a (s +:+ t)).
    now rewrite !prefix_slash_cons.
Qed.

Lemma os_path_join_test_data (slug : string) :
  os_path_join "test_data" (slug +:+ ".html")
  = if String.prefix "/" slug then slug +:+ ".html" else fixture_path slug.
Proof.
  unfold os_path_join.
  rewrite prefix_slash_append by reflexivity.
  destruct (String.prefix "/" slug); reflexivity.
Qed.

(** ** Lemmas on the library calls *)

Lemma http_error_msg_set (r : Response) :
  400 <= status_code r < 600 -> http_error_msg r <> "".
Proof.
  intros [H1 H2]. unfold http_error_msg.
  apply Z.leb_le in H1. rewrite H1. cbn [andb].
  destruct (Z.ltb_spec (status_code r) 500) as [H5|H5].
  - apply append_nonempty_r. discriminate.
  - apply Z.leb_le in H5. apply Z.ltb_lt in H2. rewrite H5, H2. cbn [andb].
    apply append_nonempty_r. discriminate.
Qed.

Lemma http_error_msg_unset (r : Response) :
  status_code r < 400 \/ 600 <= status_code r -> http_error_msg r = "".
Proof.
  intros H. unfold http_error_msg.
  replace ((400 <=? status_code r) && (status_code r <? 500)) with false
    by (symmetry; apply andb_false_iff; rewrite Z.leb_gt, Z.ltb_ge; lia).
  replace ((500 <=? status_code r) && (status_code r <? 600)) with false
    by (symmetry; apply andb_false_iff; rewrite Z.leb_gt, Z.ltb_ge; lia).
  reflexivity.
Qed.

Lemma raise_for_status_passes (r : Response) :
  status_code r < 400 \/ 600 <= status_code r ->
  raise_for_status r = ret tt.
Proof.
  intros H. unfold raise_for_status. now rewrite (http_error_msg_unset r H).
Qed.

Lemma raise_for_status_raises (r : Response) :
  400 <= status_code r < 600 ->
  raise_for_status r = raise (HTTPError (http_error_msg r)).
Proof.
  intros H. unfold raise_for_status.
  apply http_error_msg_set, String.eqb_neq in H. now rewrite H.
Qed.

(** [open(path, "w")] leaves an empty file, whatever was there. *)
Lemma open_w_ok (E : Env) (w : World) (path : string) :
  fs w !! path <> Some Directory ->
  open_w path E w = (Ok path, set_fs (<[path := RegularFile ""]> (fs w)) w).
Proof.
  intros Hnd. unfold open_w.
  destruct (fs w !! path) as [[c|]|]; try congruence; reflexivity.
Qed.

Lemma open_w_directory (E : Env) (w : World) (path : string) :
  fs w !! path = Some Directory ->
  open_w path E w = (Raise (IsADirectoryError path), w).
Proof. intros Hd. unfold open_w. now rewrite Hd. Qed.

(** The first [f.write(s)] after it: the file holds exactly [s]. *)
Lemma file_write_fresh (E : Env) (w : World) (path s : string) (m : gmap string FsNode) :
  file_write path s E (set_fs (<[path := RegularFile ""]> m) w)
  = (Ok tt, set_fs (<[path := RegularFile s]> m) w).
Proof.
  unfold file_write. simpl. rewrite lookup_insert_eq, insert_insert_eq. reflexivity.
Qed.

(** ** Stage lemmas *)

Lemma fetch_opinion_ok (E : Env) (w : World) (id : string) (r : Response) :
  http_server E (ById.url id) = inr r ->
  status_code r < 400 \/ 600 <= status_code r ->
  ById.fetch_opinion id E w
  = (Ok (soup_get_text E (body r)), add_event (HttpGet (ById.url id)) w).
Proof.
  intros Hget Hst. unfold ById.fetch_opinion, bind, requests_get.
  rewrite Hget, (raise_for_status_passes r Hst). reflexivity.
Qed.

Lemma fetch_opinion_http_error (E : Env) (w : World) (id : string) (r : Response) :
  http_server E (ById.url id) = inr r ->
  400 <= status_code r < 600 ->
  ById.fetch_opinion id E w
  = (Raise (HTTPError (http_error_msg r)), add_event (HttpGet (ById.url id)) w).
Proof.
  intros Hget Hst. unfold ById.fetch_opinion, bind, requests_get.
  rewrite Hget, (raise_for_status_raises r Hst). reflexivity.
Qed.

Lemma fetch_opinion_transport_error (E : Env) (w : World) (id msg : string) :
  http_server E (ById.url id) = inl msg ->
  ById.fetch_opinion id E w
  = (Raise (RequestException msg), add_event (HttpGet (ById.url id)) w).
Proof.
  intros Hget. unfold ById.fetch_opinion, bind, requests_get.
  rewrite Hget. reflexivity.
Qed.

Lemma fetch_opinion_effects (E : Env) (w : World) (id : string) :
  snd (ById.fetch_opinion id E w) = add_event (HttpGet (ById.url id)) w.
Proof.
  unfold ById.fetch_opinion, bind, requests_get.
  destruct (http_server E (ById.url id)) as [msg|r]; [reflexivity|].
  unfold raise_for_status.
  destruct (negb (String.eqb (http_error_msg r) "")); reflexivity.
Qed.

Lemma get_file_by_slug_found (E : Env) (w : World) (slug : string) (n : FsNode) :
  fs w !! "test_data" = Some Directory ->
  fs w !! os_path_join "test_data" (slug +:+ ".html") = Some n ->
  BySlug.get_file_by_slug slug E w
  = (Ok (os_path_join "test_data" (slug +:+ ".html")), w).
Proof.
  intros Hd Hf.
  unfold BySlug.get_file_by_slug, bind, os_path_exists, os_path_isdir, ret.
  cbv beta iota. rewrite Hd. cbn [negb]. cbv beta iota.
  rewrite Hd. cbn [negb]. cbv beta iota. rewrite Hf. reflexivity.
Qed.

Lemma get_file_by_slug_no_directory (E : Env) (w : World) (slug : string) :
  fs w !! "test_data" <> Some Directory ->
  BySlug.get_file_by_slug slug E w
  = (Raise (SystemExit (ExitMessage
       "Error: The directory 'test_data' does not exist or is not a directory.")), w).
Proof.
  intros Hd.
  unfold BySlug.get_file_by_slug, bind, os_path_exists, os_path_isdir, ret.
  cbv beta iota.
  destruct (fs w !! "test_data") as [[c|]|] eqn:Hl; try congruence;
    cbn [negb]; cbv beta iota; rewrite ?Hl; reflexivity.
Qed.

Lemma get_file_by_slug_no_file (E : Env) (w : World) (slug : string) :
  fs w !! "test_data" = Some Directory ->
  fs w !! os_path_join "test_data" (slug +:+ ".html") = None ->
  BySlug.get_file_by_slug slug E w
  = (Raise (SystemExit (ExitMessage
       ("Error: No HTML file matching slug '" +:+ slug +:+ "' found in 'test_data'."))), w).
Proof.
  intros Hd Hf.
  unfold BySlug.get_file_by_slug, bind, os_path_exists, os_path_isdir, ret.
  cbv beta iota. rewrite Hd. cbn [negb]. cbv beta iota.
  rewrite Hd. cbn [negb]. cbv beta iota. rewrite Hf. reflexivity.
Qed.

Lemma get_file_by_slug_world (E : Env) (w : World) (slug : string) :
  snd (BySlug.get_file_by_slug slug E w) = w.
Proof.
  unfold BySlug.get_file_by_slug, bind, os_path_exists, os_path_isdir, ret.
  cbv beta iota.
  destruct (fs w !! "test_data") as [[c|]|] eqn:Hd;
    cbn [negb]; cbv beta iota; rewrite ?Hd; try reflexivity.
  cbn [negb]. cbv beta iota.
  destruct (fs w !! os_path_join "test_data" (slug +:+ ".html")); reflexivity.
Qed.

(** The resolver on every slug: it looks up exactly one path,
    [os.path.join("test_data", slug + ".html")], and nothing else; it
    returns that path when the fixture directory is a directory and the
    path exists, and exits with a message that names what is missing
    otherwise.  For a slug that does not start with a slash the path is
    the entry [slug + ".html"] of the fixture directory, and the resolver
    does what C7 says. *)
Lemma get_file_by_slug_exact_match (E : Env) (w : World) (slug : string) :
  let path := os_path_join "test_data" (slug +:+ ".html") in
  path = (if String.prefix "/" slug then slug +:+ ".html" else fixture_path slug)
  /\ BySlug.get_file_by_slug slug E w
     = (match fs w !! "test_data", fs w !! path with
        | Some Directory, Some _ => Ok path
        | Some Directory, None =>
            Raise (SystemExit (ExitMessage
              ("Error: No HTML file matching slug '" +:+ slug +:+ "' found in 'test_data'.")))
        | _, _ =>
            Raise (SystemExit (ExitMessage
              "Error: The directory 'test_data' does not exist or is not a directory."))
        end, w)
  /\ (String.prefix "/" slug = false -> resolves_in_fixture_directory E w slug).
Proof.
  intros path.
  assert (Hrun : BySlug.get_file_by_slug slug E w
     = (match fs w !! "test_data", fs w !! path with
        | Some Directory, Some _ => Ok path
        | Some Directory, None =>
            Raise (SystemExit (ExitMessage
              ("Error: No HTML file matching slug '" +:+ slug +:+ "' found in 'test_data'.")))
        | _, _ =>
            Raise (SystemExit (ExitMessage
              "Error: The directory 'test_data' does not exist or is not a directory."))
        end, w)).
  { destruct (fs w !! "test_data") as [[c|]|] eqn:Hd.
    - apply get_file_by_slug_no_directory. congruence.
    - destruct (fs w !! path) as [n|] eqn:Hf.
      + apply (get_file_by_slug_found E w slug n Hd Hf).
      + apply (get_file_by_slug_no_file E w slug Hd Hf).
    - apply get_file_by_slug_no_directory. congruence. }
  split; [apply os_path_join_test_data|]. split; [exact Hrun|].
  intros Hrel. unfold resolves_in_fixture_directory.
  assert (Hpath : path = fixture_path slug).
  { unfold path. rewrite os_path_join_test_data, Hrel. reflexivity. }
  rewrite Hrun, Hpath. split.
  - intros [Hd [n Hn]]. now rewrite Hd, Hn.
  - intros Hnot.
    destruct (fs w !! "test_data") as [[c|]|] eqn:Hd; eauto.
    destruct (fs w !! fixture_path slug) as [n|] eqn:Hf; eauto.
    exfalso. apply Hnot. eauto.
Qed.

Lemma extract_text_from_html_file (E : Env) (w : World) (path html : string) :
  fs w !! path = Some (RegularFile html) ->
  BySlug.extract_text_from_html path E w = (Ok (soup_get_text E html), w).
Proof.
  intros Hf. unfold BySlug.extract_text_from_html, bind, read_text.
  rewrite Hf. reflexivity.
Qed.

Lemma extract_text_from_html_world (E : Env) (w : World) (path : string) :
  snd (BySlug.extract_text_from_html path E w) = w.
Proof.
  unfold BySlug.extract_text_from_html, bind, read_text.
  destruct (fs w !! path) as [[c|]|]; reflexivity.
Qed.

Lemma model_call_returns (v : Variant) (E : Env) (w : World) (text t : string) :
  model_endpoint E (request_of v E text) = inl t ->
  get_negative_treatments_of v text E w
  = (Ok t, add_event (ResponsesCreate (request_of v E text)) w).
Proof.
  intros H. destruct v; simpl in *;
    unfold ById.get_negative_treatments, BySlug.get_negative_treatments,
      try_except_Exception, bind, ask, responses_create;
    rewrite H; reflexivity.
Qed.

Lemma model_call_raises (v : Variant) (E : Env) (w : World) (text msg : string) :
  model_endpoint E (request_of v E text) = inr msg ->
  get_negative_treatments_of v text E w
  = (Raise (SystemExit (ExitMessage ("Error calling OpenAI API: " +:+ msg))),
     add_event (ResponsesCreate (request_of v E text)) w).
Proof.
  intros H. destruct v; simpl in *;
    unfold ById.get_negative_treatments, BySlug.get_negative_treatments,
      try_except_Exception, bind, ask, responses_create;
    rewrite H; reflexivity.
Qed.

Lemma model_call_effects (v : Variant) (E : Env) (w : World) (text : string) :
  snd (get_negative_treatments_of v text E w)
  = add_event (ResponsesCreate (request_of v E text)) w.
Proof.
  destruct (model_endpoint E (request_of v E text)) as [t|msg] eqn:H.
  - now rewrite (model_call_returns v E w text t H).
  - now rewrite (model_call_raises v E w text msg H).
Qed.

Lemma model_call_result (v : Variant) (E : Env) (w : World) (text t : string) :
  fst (get_negative_treatments_of v text E w) = Ok t ->
  model_endpoint E (request_of v E text) = inl t.
Proof.
  destruct (model_endpoint E (request_of v E text)) as [t'|msg] eqn:H.
  - rewrite (model_call_returns v E w text t' H). simpl. congruence.
  - rewrite (model_call_raises v E w text msg H). simpl. congruence.
Qed.

Lemma opinion_stage_resolves (v : Variant) (E : Env) (w : World) (arg html : string) :
  resolves v E w arg html ->
  opinion_stage v arg E w
  = (Ok (soup_get_text E html),
     {| fs := fs w;
        stdout := stdout w ++ [hd "" (banner v arg)];
        trace := trace w ++ match v with
                            | IdBased => [HttpGet (ById.url arg)]
                            | SlugBased => []
                            end |}).
Proof.
  destruct v; simpl.
  - intros (r & Hget & <- & Hst).
    erewrite bind_ok by reflexivity.
    erewrite fetch_opinion_ok by eauto. reflexivity.
  - intros (Hd & Hf).
    erewrite bind_ok by reflexivity.
    erewrite bind_ok by (eapply get_file_by_slug_found; simpl; eauto).
    erewrite extract_text_from_html_file by (simpl; eauto).
    unfold add_stdout. simpl. now rewrite app_nil_r.
Qed.

Lemma opinion_stage_effects (v : Variant) (E : Env) (w : World) (arg : string) :
  snd (opinion_stage v arg E w)
  = {| fs := fs w;
       stdout := stdout w ++ [hd "" (banner v arg)];
       trace := trace w ++ match v with
                           | IdBased => [HttpGet (ById.url arg)]
                           | SlugBased => []
                           end |}.
Proof.
  destruct v; simpl.
  - erewrite bind_ok by reflexivity. now rewrite fetch_opinion_effects.
  - erewrite bind_ok by reflexivity.
    unfold bind.
    pose proof (get_file_by_slug_world E
      (add_stdout ("Fetching legal decision text for slug: " +:+ arg) w) arg) as H1.
    destruct (BySlug.get_file_by_slug arg E _) as [[file|e] w1]; simpl in H1; subst w1.
    + rewrite extract_text_from_html_world. unfold add_stdout; simpl.
      now rewrite app_nil_r.
    + unfold add_stdout; simpl. now rewrite app_nil_r.
Qed.

Lemma result_writer_found (v : Variant) (E : Env) (w : World) (t : string) :
  t <> "[]" ->
  fs w !! "results.json" <> Some Directory ->
  result_writer v t E w
  = (Ok tt,
     {| fs := <["results.json" := RegularFile t]> (fs w);
        stdout := stdout w
                  ++ [nl +:+ "FOUND NEGATIVELY-TREATED CASE(S) (see 'results.json'):"; t];
        trace := trace w |}).
Proof.
  intros Hne Hnd. apply String.eqb_neq in Hne.
  destruct v; simpl; rewrite Hne;
    (erewrite bind_ok by (apply open_w_ok; exact Hnd));
    (erewrite bind_ok by apply file_write_fresh);
    unfold bind, print, ret, add_stdout, set_fs; simpl;
    now rewrite <- app_assoc.
Qed.

Lemma result_writer_blocked (v : Variant) (E : Env) (w : World) (t : string) :
  t <> "[]" ->
  fs w !! "results.json" = Some Directory ->
  result_writer v t E w = (Raise (IsADirectoryError "results.json"), w).
Proof.
  intros Hne Hd. apply String.eqb_neq in Hne.
  destruct v; simpl; rewrite Hne;
    (erewrite bind_raise by (apply open_w_directory; exact Hd)); reflexivity.
Qed.

Lemma result_writer_empty (v : Variant) (E : Env) (w : World) :
  result_writer v "[]" E w
  = (match v with
     | IdBased => Raise (UnboundLocalError "f")
     | SlugBased => Ok tt
     end,
     add_stdout (nothing_found v) w).
Proof. destruct v; reflexivity. Qed.

Lemma result_writer_effects (v : Variant) (E : Env) (w : World) (t : string) :
  let w' := snd (result_writer v t E w) in
  trace w' = trace w
  /\ (fs w' = fs w
      \/ (t <> "[]" /\ fs w' = <["results.json" := RegularFile t]> (fs w))).
Proof.
  destruct (String.eqb_spec t "[]") as [->|Hne].
  - rewrite result_writer_empty. simpl. auto.
  - destruct (fs w !! "results.json") as [[c|]|] eqn:Hl.
    + rewrite result_writer_found by congruence. simpl. auto.
    + rewrite result_writer_blocked by assumption. simpl. auto.
    + rewrite result_writer_found by congruence. simpl. auto.
Qed.

(** ** Whole runs *)

(** [main] is its stages in sequence. *)
Lemma main_stages (v : Variant) (arg : string) (E : Env) (w : World) :
  main_of v arg E w
  = (opinion_text <- opinion_stage v arg ;;
     print "Analyzing legal decision for negative case treatment using ChatGPT..." ;;
     treatments <- get_negative_treatments_of v opinion_text ;;
     result_writer v treatments) E w.
Proof.
  destruct v; simpl; unfold ById.main, BySlug.main, bind, print.
  - reflexivity.
  - destruct (BySlug.get_file_by_slug arg E _) as [[file|e] w1]; reflexivity.
Qed.

(** A run whose model answer is [t]: everything before the result writer. *)
Lemma main_until_writer (v : Variant) (E : Env) (w : World) (arg html t : string) :
  resolves v E w arg html ->
  model_endpoint E (request_of v E (soup_get_text E html)) = inl t ->
  main_of v arg E w
  = result_writer v t E
      {| fs := fs w;
         stdout := stdout w ++ banner v arg;
         trace := trace w ++ requests_of v E arg (soup_get_text E html) |}.
Proof.
  intros Hres Hans. rewrite main_stages.
  erewrite bind_ok by (apply opinion_stage_resolves; exact Hres).
  erewrite bind_ok by reflexivity.
  erewrite bind_ok by (apply model_call_returns; exact Hans).
  f_equal. unfold add_event, add_stdout. simpl.
  f_equal; rewrite <- app_assoc; destruct v; reflexivity.
Qed.

Lemma main_found (v : Variant) (E : Env) (w : World) (arg html t : string) :
  resolves v E w arg html ->
  model_endpoint E (request_of v E (soup_get_text E html)) = inl t ->
  t <> "[]" ->
  fs w !! "results.json" <> Some Directory ->
  main_of v arg E w
  = (Ok tt,
     {| fs := <["results.json" := RegularFile t]> (fs w);
        stdout := stdout w ++ banner v arg ++ [found_line; t];
        trace := trace w ++ requests_of v E arg (soup_get_text E html) |}).
Proof.
  intros Hres Hans Hne Hnd.
  rewrite (main_until_writer v E w arg html t Hres Hans).
  rewrite result_writer_found by assumption. simpl.
  now rewrite <- app_assoc.
Qed.

Lemma main_empty (v : Variant) (E : Env) (w : World) (arg html : string) :
  resolves v E w arg html ->
  model_endpoint E (request_of v E (soup_get_text E html)) = inl "[]" ->
  main_of v arg E w
  = (match v with
     | IdBased => Raise (UnboundLocalError "f")
     | SlugBased => Ok tt
     end,
     {| fs := fs w;
        stdout := stdout w ++ banner v arg ++ [nothing_found v];
        trace := trace w ++ requests_of v E arg (soup_get_text E html) |}).
Proof.
  intros Hres Hans.
  rewrite (main_until_writer v E w arg html "[]" Hres Hans).
  rewrite result_writer_empty. unfold add_stdout. simpl.
  now rewrite <- app_assoc.
Qed.

Lemma main_model_error (v : Variant) (E : Env) (w : World) (arg html msg : string) :
  resolves v E w arg html ->
  model_endpoint E (request_of v E (soup_get_text E html)) = inr msg ->
  main_of v arg E w
  = (Raise (SystemExit (ExitMessage ("Error calling OpenAI API: " +:+ msg))),
     {| fs := fs w;
        stdout := stdout w ++ banner v arg;
        trace := trace w ++ requests_of v E arg (soup_get_text E html) |}).
Proof.
  intros Hres Hans. rewrite main_stages.
  erewrite bind_ok by (apply opinion_stage_resolves; exact Hres).
  erewrite bind_ok by reflexivity.
  erewrite bind_raise by (apply model_call_raises; exact Hans).
  f_equal. unfold add_event, add_stdout. simpl.
  f_equal; rewrite <- app_assoc; destruct v; reflexivity.
Qed.

Lemma main_http_error (E : Env) (w : World) (id : string) (r : Response) :
  http_server E (ById.url id) = inr r ->
  400 <= status_code r < 600 ->
  ById.main id E w
  = (Raise (HTTPError (http_error_msg r)),
     {| fs := fs w;
        stdout := stdout w ++ ["Fetching legal decision text with id: " +:+ id];
        trace := trace w ++ [HttpGet (ById.url id)] |}).
Proof.
  intros Hget Hst. unfold ById.main.
  erewrite bind_ok by reflexivity.
  erewrite bind_raise by (apply fetch_opinion_http_error; eassumption).
  reflexivity.
Qed.

(** What a run can do to the file system and to the trace, whatever
    happens in it. *)
Lemma main_effects (v : Variant) (E : Env) (w : World) (arg : string) :
  let w' := snd (main_of v arg E w) in
  (fs w' = fs w /\ (v = IdBased -> exists rest, trace w' = trace w ++ HttpGet (ById.url arg) :: rest))
  \/ exists text,
       trace w' = trace w ++ requests_of v E arg text
       /\ (fs w' = fs w
           \/ exists t,
                model_endpoint E (request_of v E text) = inl t
                /\ t <> "[]"
                /\ fs w' = <["results.json" := RegularFile t]> (fs w)).
Proof.
  rewrite main_stages. unfold bind at 1.
  pose proof (opinion_stage_effects v E w arg) as H1.
  destruct (opinion_stage v arg E w) as [[text|e] w1]; simpl in H1; subst w1.
  - right. exists text.
    erewrite bind_ok by reflexivity. unfold bind.
    match goal with
    | |- context [get_negative_treatments_of v text E ?w0] =>
        pose proof (model_call_effects v E w0 text) as H2;
        pose proof (model_call_result v E w0 text) as H3;
        destruct (get_negative_treatments_of v text E w0) as [[t|e] w2]
    end; simpl in H2, H3; subst w2.
    + match goal with
      | |- context [result_writer v t E ?w0] =>
          destruct (result_writer_effects v E w0 t) as [Ht Hf]
      end.
      simpl in Ht, Hf. simpl. rewrite Ht. split.
      * rewrite <- app_assoc. destruct v; reflexivity.
      * destruct Hf as [Hf|[Hne Hf]]; [now left|right].
        exists t. auto.
    + simpl. split; [|now left].
      rewrite <- app_assoc. destruct v; reflexivity.
  - left. simpl. split; [reflexivity|].
    intros ->. exists []. reflexivity.
Qed.

(** The requests of a run whose resolver finds the document, whatever
    the model answers. *)
Lemma main_requests (v : Variant) (E : Env) (w : World) (arg html : string) :
  resolves v E w arg html ->
  trace (snd (main_of v arg E w))
  = trace w ++ requests_of v E arg (soup_get_text E html).
Proof.
  intros Hres.
  destruct (model_endpoint E (request_of v E (soup_get_text E html))) as [t|msg] eqn:Hans.
  - rewrite (main_until_writer v E w arg html t Hres Hans).
    match goal with
    | |- context [result_writer v t E ?w0] =>
        destruct (result_writer_effects v E w0 t) as [Ht _]
    end.
    simpl in Ht. rewrite Ht. reflexivity.
  - now rewrite (main_model_error v E w arg html msg Hres Hans).
Qed.

(** ** Properties of the pipelines *)

(** C1: for every model response other than the sentinel "[]", both
    variants return normally after writing exactly that string to
    results.json, replacing whatever the file held, and print the same
    string on the console after the FOUND line.  The run is one whose
    resolver finds the document and in which results.json can be opened
    for writing. *)
Theorem found_response_written_verbatim
    (v : Variant) (E : Env) (w : World) (arg html t : string) :
  resolves v E w arg html ->
  model_endpoint E (request_of v E (soup_get_text E html)) = inl t ->
  t <> "[]" ->
  fs w !! "results.json" <> Some Directory ->
  exists w',
    main_of v arg E w = (Ok tt, w')
    /\ fs w' = <["results.json" := RegularFile t]> (fs w)
    /\ fs w' !! "results.json" = Some (RegularFile t)
    /\ stdout w' = stdout w ++ banner v arg ++ [found_line; t].
Proof.
  intros Hres Hans Hne Hnd. eexists. split.
  - apply (main_found v E w arg html t Hres Hans Hne Hnd).
  - simpl. split; [reflexivity|]. split; [apply lookup_insert_eq|reflexivity].
Qed.

Lemma found_response_written_verbatim_witness :
  (exists w',
     ById.main "4242" (stub_env ∅ 200 (inl roe_json)) empty_world = (Ok tt, w')
     /\ fs w' !! "results.json" = Some (RegularFile roe_json))
  /\ (exists w',
        BySlug.main "foo" (stub_env ∅ 200 (inl lochner_json)) rerun_world = (Ok tt, w')
        /\ fs w' !! "results.json" = Some (RegularFile lochner_json)).
Proof.
  split.
  - destruct (found_response_written_verbatim IdBased
                (stub_env ∅ 200 (inl roe_json)) empty_world "4242" page roe_json)
      as (w' & Hrun & _ & Hfile & _).
    + eexists. split; [reflexivity|]. split; [reflexivity|simpl; lia].
    + reflexivity.
    + discriminate.
    + discriminate.
    + exists w'. split; assumption.
  - destruct (found_response_written_verbatim SlugBased
                (stub_env ∅ 200 (inl lochner_json)) rerun_world "foo" page lochner_json)
      as (w' & Hrun & _ & Hfile & _).
    + split; reflexivity.
    + reflexivity.
    + discriminate.
    + discriminate.
    + exists w'. split; assumption.
Defined.

(** C2: when the model answers exactly "[]", both variants print their
    no-cases-found line and leave the file system as it was; the slug
    variant then returns, the id variant goes on to [f.write("")] with a
    handle [f] that was never opened and dies on reading [f]. *)
Theorem empty_response_reported_not_written
    (v : Variant) (E : Env) (w : World) (arg html : string) :
  resolves v E w arg html ->
  model_endpoint E (request_of v E (soup_get_text E html)) = inl "[]" ->
  exists w',
    main_of v arg E w
    = (match v with
       | IdBased => Raise (UnboundLocalError "f")
       | SlugBased => Ok tt
       end, w')
    /\ fs w' = fs w
    /\ stdout w' = stdout w ++ banner v arg ++ [nothing_found v].
Proof.
  intros Hres Hans. eexists. split.
  - apply (main_empty v E w arg html Hres Hans).
  - simpl. split; reflexivity.
Qed.

Lemma empty_response_reported_not_written_witness :
  (exists w',
     ById.main "4242" (stub_env ∅ 200 (inl "[]")) empty_world
     = (Raise (UnboundLocalError "f"), w')
     /\ fs w' !! "results.json" = None
     /\ last (stdout w') = Some "NO NEGATIVELY-TREATED CASES FOUND!")
  /\ (exists w',
        BySlug.main "foo" (stub_env ∅ 200 (inl "[]")) fixture_world = (Ok tt, w')
        /\ fs w' !! "results.json" = None
        /\ last (stdout w') = Some "NO NEGATVIELY-TREATED CASES FOUND!").
Proof.
  split.
  - destruct (empty_response_reported_not_written IdBased
                (stub_env ∅ 200 (inl "[]")) empty_world "4242" page)
      as (w' & Hrun & Hfs & Hout).
    + eexists. split; [reflexivity|]. split; [reflexivity|simpl; lia].
    + reflexivity.
    + exists w'. split; [exact Hrun|]. rewrite Hfs, Hout. split; reflexivity.
  - destruct (empty_response_reported_not_written SlugBased
                (stub_env ∅ 200 (inl "[]")) fixture_world "foo" page)
      as (w' & Hrun & Hfs & Hout).
    + split; reflexivity.
    + reflexivity.
    + exists w'. split; [exact Hrun|]. rewrite Hfs, Hout. split; reflexivity.
Defined.

(** The file system of [rerun_world] is what a run that found the case
    of [roe_json] leaves behind. *)
Example rerun_world_reached :
  fs (snd (BySlug.main "foo" (stub_env ∅ 200 (inl roe_json)) fixture_world))
  = fs rerun_world.
Proof. reflexivity. Qed.

(** C3 as worded fails: a run that answers "[]" leaves the result file
    of an earlier run in place, which is neither this run's answer nor
    absent nor empty. *)
Lemma result_file_invariant_counterexample :
  ~ result_file_invariant SlugBased (stub_env ∅ 200 (inl "[]")) rerun_world "foo".
Proof.
  unfold result_file_invariant.
  intros [(text & t & _ & Hans & Hne & _) | [H | H]].
  - simpl in Hans. congruence.
  - vm_compute in H. discriminate.
  - vm_compute in H. discriminate.
Qed.

(** C3, amended: a run touches no path but results.json; after it the
    file holds exactly the non-sentinel text the model returned in that
    run, or is absent, or is empty, or is as it was before the run (a
    run that finds nothing leaves an earlier result file in place).  Any
    non-sentinel answer whatsoever is written as it is: nothing checks it
    first. *)
Theorem result_file_after_run (v : Variant) (E : Env) (w : World) (arg : string) :
  let w' := snd (main_of v arg E w) in
  (forall p, p <> "results.json" -> fs w' !! p = fs w !! p)
  /\ (result_file_invariant v E w arg
      \/ fs w' !! "results.json" = fs w !! "results.json")
  /\ (forall html t,
        resolves v E w arg html ->
        model_endpoint E (request_of v E (soup_get_text E html)) = inl t ->
        t <> "[]" ->
        fs w !! "results.json" <> Some Directory ->
        fs w' !! "results.json" = Some (RegularFile t)).
Proof.
  intros w'.
  assert (Hcases :
    fs w' = fs w
    \/ exists text t,
         trace w' = trace w ++ requests_of v E arg text
         /\ model_endpoint E (request_of v E text) = inl t
         /\ t <> "[]"
         /\ fs w' = <["results.json" := RegularFile t]> (fs w)).
  { destruct (main_effects v E w arg) as [[Hfs _]|(text & Htr & [Hfs|(t & Hans & Hne & Hfs)])];
      [now left|now left|].
    right. exists text, t. auto. }
  split; [|split].
  - intros p Hp. destruct Hcases as [Hfs|(text & t & _ & _ & _ & Hfs)]; rewrite Hfs.
    + reflexivity.
    + now apply lookup_insert_ne.
  - destruct Hcases as [Hfs|(text & t & Htr & Hans & Hne & Hfs)].
    + right. now rewrite Hfs.
    + left. unfold result_file_invariant. fold w'. left. exists text, t.
      split; [|split; [exact Hans|split; [exact Hne|]]].
      * rewrite Htr. apply elem_of_app. right.
        destruct v; simpl; [apply list_elem_of_further|]; apply list_elem_of_here.
      * rewrite Hfs. apply lookup_insert_eq.
  - intros html t Hres Hans Hne Hnd. subst w'.
    rewrite (main_found v E w arg html t Hres Hans Hne Hnd). simpl.
    apply lookup_insert_eq.
Qed.

Lemma result_file_after_run_witness :
  fs (snd (BySlug.main "foo" (stub_env ∅ 200 (inl "[]")) rerun_world)) !! "test_data/foo.html"
  = Some (RegularFile page)
  /\ fs (snd (ById.main "4242" (stub_env ∅ 200 (inl "not JSON at all")) empty_world))
       !! "results.json"
     = Some (RegularFile "not JSON at all").
Proof.
  split.
  - destruct (result_file_after_run SlugBased (stub_env ∅ 200 (inl "[]")) rerun_world "foo")
      as (Hother & _).
    transitivity (fs rerun_world !! "test_data/foo.html"); [|reflexivity].
    apply (Hother "test_data/foo.html"). discriminate.
  - destruct (result_file_after_run IdBased (stub_env ∅ 200 (inl "not JSON at all"))
                empty_world "4242")
      as (_ & _ & Hraw).
    apply (Hraw page).
    + eexists. split; [reflexivity|]. split; [reflexivity|simpl; lia].
    + reflexivity.
    + discriminate.
    + discriminate.
Defined.

(** A 304 answer is not a 2xx one, [raise_for_status] lets it through,
    and the run goes on to the model and to the result file. *)
Example not_modified_reaches_model :
  exists req rest w',
    ById.main "4242" (stub_env ∅ 304 (inl roe_json)) empty_world = (Ok tt, w')
    /\ trace w' = HttpGet (ById.url "4242") :: ResponsesCreate req :: rest
    /\ fs w' !! "results.json" = Some (RegularFile roe_json).
Proof. do 3 eexists. split; [reflexivity|]. split; reflexivity. Qed.

(** C4 as worded fails: with a 304 answer the trace of the run does not
    stop at the GET. *)
Lemma non_2xx_stops_counterexample :
  ~ non_2xx_stops (stub_env ∅ 304 (inl roe_json)) empty_world "4242".
Proof.
  intros H.
  destruct (H {| status_code := 304; reason := ""; resp_url := ById.url "4242";
                 body := page |} eq_refl) as (_ & Htr & _).
  - simpl. lia.
  - vm_compute in Htr. discriminate.
Qed.

(** C4, amended: in the id-based variant, whenever the GET is answered
    with a 4xx or 5xx status (the statuses on which [raise_for_status]
    raises), the run ends with that [HTTPError] right after the GET: the
    model client is never invoked and no file is written. *)
Theorem http_error_stops_before_model (E : Env) (w : World) (id : string) (r : Response) :
  http_server E (ById.url id) = inr r ->
  400 <= status_code r < 600 ->
  ById.main id E w
  = (Raise (HTTPError (http_error_msg r)),
     {| fs := fs w;
        stdout := stdout w ++ ["Fetching legal decision text with id: " +:+ id];
        trace := trace w ++ [HttpGet (ById.url id)] |})
  /\ stops_before_model E w id.
Proof.
  intros Hget Hst.
  pose proof (main_http_error E w id r Hget Hst) as Hrun.
  split; [exact Hrun|].
  unfold stops_before_model. rewrite Hrun. simpl. eauto.
Qed.

Lemma http_error_stops_before_model_witness :
  stops_before_model (stub_env ∅ 404 (inl roe_json)) empty_world "4242"
  /\ stops_before_model (stub_env ∅ 503 (inl roe_json)) rerun_world "4242".
Proof.
  split.
  - apply (http_error_stops_before_model (stub_env ∅ 404 (inl roe_json)) empty_world "4242"
             {| status_code := 404; reason := ""; resp_url := ById.url "4242";
                body := page |}); [reflexivity|simpl; lia].
  - apply (http_error_stops_before_model (stub_env ∅ 503 (inl roe_json)) rerun_world "4242"
             {| status_code := 503; reason := ""; resp_url := ById.url "4242";
                body := page |}); [reflexivity|simpl; lia].
Defined.

(** C5: in both variants, when the model-client call raises, the run ends
    at once in [sys.exit] with a message that carries the error (exit
    status 1); the model was asked once, and the file system is as it
    was. *)
Theorem model_error_terminates
    (v : Variant) (E : Env) (w : World) (arg html msg : string) :
  resolves v E w arg html ->
  model_endpoint E (request_of v E (soup_get_text E html)) = inr msg ->
  exists w',
    main_of v arg E w
    = (Raise (SystemExit (ExitMessage ("Error calling OpenAI API: " +:+ msg))), w')
    /\ exit_status (fst (main_of v arg E w)) = 1
    /\ fs w' = fs w
    /\ trace w' = trace w ++ requests_of v E arg (soup_get_text E html)
    /\ length (models_requested (trace w')) = S (length (models_requested (trace w))).
Proof.
  intros Hres Hans.
  pose proof (main_model_error v E w arg html msg Hres Hans) as Hrun.
  eexists. split; [exact Hrun|]. rewrite Hrun. simpl.
  repeat split.
  unfold models_requested. rewrite omap_app, length_app.
  destruct v; simpl; lia.
Qed.

Lemma model_error_terminates_witness :
  (exists w',
     ById.main "4242" (stub_env ∅ 200 (inr "Connection error.")) rerun_world
     = (Raise (SystemExit (ExitMessage "Error calling OpenAI API: Connection error.")), w')
     /\ fs w' = fs rerun_world)
  /\ (exists w',
        BySlug.main "foo" (stub_env ∅ 200 (inr "Connection error.")) fixture_world
        = (Raise (SystemExit (ExitMessage "Error calling OpenAI API: Connection error.")), w')
        /\ fs w' = fs fixture_world).
Proof.
  split.
  - destruct (model_error_terminates IdBased
                (stub_env ∅ 200 (inr "Connection error.")) rerun_world "4242" page
                "Connection error.")
      as (w' & Hrun & _ & Hfs & _).
    + eexists. split; [reflexivity|]. split; [reflexivity|simpl; lia].
    + reflexivity.
    + exists w'. split; assumption.
  - destruct (model_error_terminates SlugBased
                (stub_env ∅ 200 (inr "Connection error.")) fixture_world "foo" page
                "Connection error.")
      as (w' & Hrun & _ & Hfs & _).
    + split; reflexivity.
    + reflexivity.
    + exists w'. split; assumption.
Defined.

(** C6 as worded fails: the slug-based variant does not look at the
    variable; with CHAT_GPT_MODEL set to "gpt-4o" it still asks for
    "gpt-3.5-turbo". *)
Lemma model_follows_environment_counterexample :
  ~ model_follows_environment SlugBased
      (stub_env {[ "CHAT_GPT_MODEL" := "gpt-4o" ]} 200 (inl "[]"))
      empty_world "Opinion of the Court".
Proof.
  unfold model_follows_environment. intros H. vm_compute in H. discriminate.
Qed.

(** C6, amended: the id-based variant sends the value of CHAT_GPT_MODEL
    when the variable is set and "gpt-3.5-turbo" when it is not; the
    slug-based variant always sends "gpt-3.5-turbo", whatever the
    environment holds. *)
Theorem model_identifier_sent (E : Env) (w : World) (text : string) :
  model_follows_environment IdBased E w text
  /\ (forall m, environ E !! "CHAT_GPT_MODEL" = Some m -> ById.model E = m)
  /\ (environ E !! "CHAT_GPT_MODEL" = None -> ById.model E = "gpt-3.5-turbo")
  /\ models_requested (trace (snd (BySlug.get_negative_treatments text E w)))
     = models_requested (trace w) ++ ["gpt-3.5-turbo"].
Proof.
  split; [|split; [|split]].
  - unfold model_follows_environment.
    rewrite model_call_effects. simpl.
    unfold models_requested. now rewrite omap_app.
  - intros m Hm. unfold ById.model, os_getenv. now rewrite Hm.
  - intros Hm. unfold ById.model, os_getenv. now rewrite Hm.
  - change (BySlug.get_negative_treatments text E w)
      with (get_negative_treatments_of SlugBased text E w).
    rewrite model_call_effects. simpl.
    unfold models_requested. now rewrite omap_app.
Qed.

Lemma model_identifier_sent_witness :
  ById.model (stub_env {[ "CHAT_GPT_MODEL" := "gpt-4o" ]} 200 (inl "[]")) = "gpt-4o"
  /\ ById.model (stub_env ∅ 200 (inl "[]")) = "gpt-3.5-turbo".
Proof.
  split.
  - apply (model_identifier_sent
             (stub_env {[ "CHAT_GPT_MODEL" := "gpt-4o" ]} 200 (inl "[]"))
             empty_world "Opinion of the Court").
    reflexivity.
  - apply (model_identifier_sent (stub_env ∅ 200 (inl "[]"))
             empty_world "Opinion of the Court").
    reflexivity.
Defined.

(** C7: on the slug "/tmp/a", with the fixture directory in place and no
    entry for the slug in it, [get_file_by_slug] does not end the
    process: [os.path.join] drops the directory for a slug that starts
    with a slash, and the path returned, "/tmp/a.html", lies outside the
    fixture directory, against the function's own docstring. *)
Theorem absolute_slug_leaves_fixture_directory :
  fs outside_world !! "test_data" = Some Directory
  /\ fs outside_world !! fixture_path "/tmp/a" = None
  /\ BySlug.get_file_by_slug "/tmp/a" (stub_env ∅ 200 (inl "[]")) outside_world
     = (Ok "/tmp/a.html", outside_world).
Proof. repeat split. Qed.

(** On that input the resolver does not do what C7 says. *)
Lemma resolves_in_fixture_directory_fails :
  ~ resolves_in_fixture_directory (stub_env ∅ 200 (inl "[]")) outside_world "/tmp/a".
Proof.
  intros [_ H]. destruct H as [msg Hmsg].
  - intros [_ [n Hn]]. vm_compute in Hn. discriminate.
  - vm_compute in Hmsg. discriminate.
Qed.

(** With [foo.html] in the fixture directory, [foo] is found and [bar]
    ends the process. *)
Example resolve_foo_and_bar :
  BySlug.get_file_by_slug "foo" (stub_env ∅ 200 (inl "[]")) fixture_world
  = (Ok "test_data/foo.html", fixture_world)
  /\ BySlug.get_file_by_slug "bar" (stub_env ∅ 200 (inl "[]")) fixture_world
     = (Raise (SystemExit (ExitMessage
          "Error: No HTML file matching slug 'bar' found in 'test_data'.")), fixture_world)
  /\ exit_status (fst (BySlug.get_file_by_slug "bar" (stub_env ∅ 200 (inl "[]")) fixture_world))
     = 1.
Proof. repeat split. Qed.

(** C8: in both variants the model call sends one request, whose only
    user message is the fixed instruction block, then the opinion text
    as it is, then a line feed: the text sits whole at a fixed offset
    and the prompt is exactly as much longer than the block as the text
    is long, for any text.  In a run, that text is the whole output of
    the extractor. *)
Theorem prompt_embeds_full_text (v : Variant) (E : Env) (w : World) (text : string) :
  let req := request_of v E text in
  let prompt := instructions_of v +:+ text +:+ nl in
  trace (snd (get_negative_treatments_of v text E w)) = trace w ++ [ResponsesCreate req]
  /\ user_prompts req = [prompt]
  /\ String.length prompt
     = (String.length (instructions_of v) + String.length text + 1)%nat
  /\ String.substring (String.length (instructions_of v)) (String.length text) prompt = text
  /\ (forall arg html,
        resolves v E w arg html ->
        trace (snd (main_of v arg E w))
        = trace w ++ requests_of v E arg (soup_get_text E html)).
Proof.
  intros req prompt. split; [|split; [|split; [|split]]].
  - now rewrite model_call_effects.
  - destruct v; reflexivity.
  - unfold prompt. rewrite !string_length_app. simpl. lia.
  - unfold prompt. rewrite substring_skip. apply substring_take.
  - intros arg html. apply main_requests.
Qed.

Lemma prompt_embeds_full_text_witness :
  trace (snd (ById.main "4242" (stub_env ∅ 200 (inl "[]")) empty_world))
  = [HttpGet (ById.url "4242");
     ResponsesCreate (ById.request "gpt-3.5-turbo" "Opinion of the Court")]
  /\ trace (snd (BySlug.main "foo" (stub_env ∅ 200 (inl "[]")) fixture_world))
     = [ResponsesCreate (BySlug.request "Opinion of the Court")].
Proof.
  split.
  - destruct (prompt_embeds_full_text IdBased (stub_env ∅ 200 (inl "[]")) empty_world
                "Opinion of the Court") as (_ & _ & _ & _ & Hmain).
    apply (Hmain "4242" page).
    eexists. split; [reflexivity|]. split; [reflexivity|simpl; lia].
  - destruct (prompt_embeds_full_text SlugBased (stub_env ∅ 200 (inl "[]")) fixture_world
                "Opinion of the Court") as (_ & _ & _ & _ & Hmain).
    apply (Hmain "foo" page).
    split; reflexivity.
Defined.

(** C10: in the id-based variant, with exactly one command-line argument
    the [__main__] block hands the argument string to [main] as it is,
    and the GET goes to the fixed URL prefix followed by that very
    string, whatever the string is: nothing converts or checks it. *)
Theorem argument_interpolated_verbatim
    (E : Env) (w : World) (argv : list string) (arg : string) :
  length argv = 2%nat ->
  argv !! 1%nat = Some arg ->
  ById.script argv E w = ById.main arg E w
  /\ (exists rest,
        trace (snd (ById.script argv E w))
        = trace w ++ HttpGet ("https://scholar.google.com/scholar_case?case=" +:+ arg) :: rest)
  /\ (exists rest,
        stdout (snd (ById.script argv E w))
        = stdout w ++ ("Fetching legal decision text with id: " +:+ arg) :: rest).
Proof.
  intros Hlen Harg.
  assert (Hrun : ById.script argv E w = ById.main arg E w).
  { unfold ById.script. rewrite Hlen, Harg. reflexivity. }
  split; [exact Hrun|]. rewrite Hrun. split.
  - destruct (main_effects IdBased E w arg) as [[_ Hrest]|(text & Htr & _)].
    + apply Hrest. reflexivity.
    + eexists. exact Htr.
  - change (ById.main arg E w) with (main_of IdBased arg E w).
    rewrite main_stages. unfold bind at 1.
    pose proof (opinion_stage_effects IdBased E w arg) as H1.
    destruct (opinion_stage IdBased arg E w) as [[text|e] w1]; simpl in H1; subst w1.
    + erewrite bind_ok by reflexivity. unfold bind.
      match goal with
      | |- context [get_negative_treatments_of IdBased text E ?w0] =>
          pose proof (model_call_effects IdBased E w0 text) as H2;
          destruct (get_negative_treatments_of IdBased text E w0) as [[t|e] w2]
      end; simpl in H2; subst w2.
      * destruct (String.eqb_spec t "[]") as [->|Hne].
        -- rewrite result_writer_empty. simpl. rewrite <- !app_assoc. eexists. reflexivity.
        -- match goal with
           | |- context [result_writer IdBased t E ?w0] =>
               destruct (fs w0 !! "results.json") as [[c|]|] eqn:Hl;
               [rewrite (result_writer_found IdBased E w0 t) by congruence
               |rewrite (result_writer_blocked IdBased E w0 t) by assumption
               |rewrite (result_writer_found IdBased E w0 t) by congruence]
           end; simpl; rewrite <- !app_assoc; eexists; reflexivity.
      * simpl. rewrite <- !app_assoc. eexists. reflexivity.
    + simpl. eexists. reflexivity.
Qed.

Lemma argument_interpolated_verbatim_witness :
  ById.script ["extract_negative_treatments.py"; "not-a-number"]
    (stub_env ∅ 200 (inl "[]")) empty_world
  = ById.main "not-a-number" (stub_env ∅ 200 (inl "[]")) empty_world
  /\ exists rest,
       trace (snd (ById.script ["extract_negative_treatments.py"; "not-a-number"]
                     (stub_env ∅ 200 (inl "[]")) empty_world))
       = HttpGet "https://scholar.google.com/scholar_case?case=not-a-number" :: rest.
Proof.
  destruct (argument_interpolated_verbatim (stub_env ∅ 200 (inl "[]")) empty_world
              ["extract_negative_treatments.py"; "not-a-number"] "not-a-number")
    as (Hrun & Htrace & _); [reflexivity|reflexivity|].
  split; [exact Hrun|exact Htrace].
Defined.

(** ** Runs in closed form *)

Lemma raise_for_status_cases (r : Response) :
  raise_for_status r
  = if (400 <=? status_code r) && (status_code r <? 600)
    then raise (HTTPError (http_error_msg r))
    else ret tt.
Proof.
  destruct ((400 <=? status_code r) && (status_code r <? 600)) eqn:Hb.
  - apply andb_true_iff in Hb as [H1 H2].
    apply Z.leb_le in H1. apply Z.ltb_lt in H2.
    apply raise_for_status_raises. lia.
  - apply andb_false_iff in Hb.
    apply raise_for_status_passes.
    destruct Hb as [H|H]; [apply Z.leb_gt in H|apply Z.ltb_ge in H]; lia.
Qed.

Lemma fetch_run (E : Env) (w : World) (url : string) :
  (response <- requests_get url ;;
   raise_for_status response ;;
   opinion_text <- BeautifulSoup_get_text (body response) ;;
   ret opinion_text) E w
  = (fetch_outcome E url, add_event (HttpGet url) w).
Proof.
  unfold bind, requests_get, fetch_outcome.
  destruct (http_server E url) as [msg|r]; [reflexivity|].
  rewrite raise_for_status_cases.
  destruct ((400 <=? status_code r) && (status_code r <? 600)); reflexivity.
Qed.

Lemma opinion_stage_outcome (v : Variant) (E : Env) (w : World) (arg : string) :
  opinion_stage v arg E w = (resolve_outcome v E w arg, after_resolver v arg w).
Proof.
  assert (Hw : forall line, add_stdout line w
                 = {| fs := fs w; stdout := stdout w ++ [line]; trace := trace w ++ [] |}).
  { intros line. unfold add_stdout. now rewrite app_nil_r. }
  destruct v; simpl.
  - erewrite bind_ok by reflexivity.
    unfold ById.fetch_opinion. rewrite fetch_run. reflexivity.
  - erewrite bind_ok by reflexivity.
    unfold resolve_outcome, after_resolver. simpl. rewrite <- Hw.
    destruct (fs w !! "test_data") as [[c|]|] eqn:Hd.
    + erewrite bind_raise by (apply get_file_by_slug_no_directory; simpl; congruence).
      reflexivity.
    + destruct (fs w !! os_path_join "test_data" (arg +:+ ".html")) as [n|] eqn:Hf.
      * erewrite bind_ok by (eapply get_file_by_slug_found; simpl; eassumption).
        unfold BySlug.extract_text_from_html, bind, read_text. simpl. rewrite Hf.
        destruct n; reflexivity.
      * erewrite bind_raise by (apply get_file_by_slug_no_file; simpl; assumption).
        reflexivity.
    + erewrite bind_raise by (apply get_file_by_slug_no_directory; simpl; congruence).
      reflexivity.
Qed.

Lemma after_resolver_analyzing (v : Variant) (E : Env) (arg text : string) (w : World) :
  add_event (ResponsesCreate (request_of v E text))
    (add_stdout "Analyzing legal decision for negative case treatment using ChatGPT..."
       (after_resolver v arg w))
  = after_model v E arg text w.
Proof.
  unfold add_event, add_stdout, after_resolver, after_model. simpl.
  f_equal; rewrite <- app_assoc; destruct v; reflexivity.
Qed.

(** Every run of [main], whatever the outside answers. *)
Lemma main_outcome (v : Variant) (E : Env) (w : World) (arg : string) :
  main_of v arg E w
  = match resolve_outcome v E w arg with
    | Raise e => (Raise e, after_resolver v arg w)
    | Ok text =>
        match model_endpoint E (request_of v E text) with
        | inr msg =>
            (Raise (SystemExit (ExitMessage ("Error calling OpenAI API: " +:+ msg))),
             after_model v E arg text w)
        | inl t => result_writer v t E (after_model v E arg text w)
        end
    end.
Proof.
  rewrite main_stages. unfold bind at 1. rewrite opinion_stage_outcome.
  destruct (resolve_outcome v E w arg) as [text|e]; [|reflexivity].
  erewrite bind_ok by reflexivity.
  destruct (model_endpoint E (request_of v E text)) as [t|msg] eqn:Hans.
  - erewrite bind_ok by (apply model_call_returns; exact Hans).
    now rewrite after_resolver_analyzing.
  - erewrite bind_raise by (apply model_call_raises; exact Hans).
    now rewrite after_resolver_analyzing.
Qed.

(** The result writer, whatever the answer and the state of the disk. *)
Lemma result_writer_outcome (v : Variant) (E : Env) (w : World) (t : string) :
  result_writer v t E w
  = if String.eqb t "[]" then
      (match v with
       | IdBased => Raise (UnboundLocalError "f")
       | SlugBased => Ok tt
       end, add_stdout (nothing_found v) w)
    else
      match fs w !! "results.json" with
      | Some Directory => (Raise (IsADirectoryError "results.json"), w)
      | _ =>
          (Ok tt,
           {| fs := <["results.json" := RegularFile t]> (fs w);
              stdout := stdout w ++ [found_line; t];
              trace := trace w |})
      end.
Proof.
  destruct (String.eqb_spec t "[]") as [->|Hne].
  - apply result_writer_empty.
  - destruct (fs w !! "results.json") as [[c|]|] eqn:Hl.
    + apply result_writer_found; congruence.
    + apply result_writer_blocked; assumption.
    + apply result_writer_found; congruence.
Qed.

Lemma main_stdout_prefix (v : Variant) (E : Env) (w : World) (arg : string) :
  exists rest,
    stdout (snd (main_of v arg E w)) = stdout w ++ fetching_line v arg :: rest.
Proof.
  rewrite main_outcome.
  destruct (resolve_outcome v E w arg) as [text|e].
  - destruct (model_endpoint E (request_of v E text)) as [t|msg].
    + rewrite result_writer_outcome.
      destruct (String.eqb t "[]");
        [|destruct (fs (after_model v E arg text w) !! "results.json") as [[c|]|]];
        simpl; rewrite <- ?app_assoc; destruct v; eexists; reflexivity.
    + simpl. destruct v; eexists; reflexivity.
  - simpl. eexists. reflexivity.
Qed.

Lemma usage_error_exits_run (v : Variant) (argv : list string) (E : Env) (w : World) :
  length argv <> 2%nat ->
  script_of v argv E w
  = (Raise (SystemExit (ExitCode 1)),
     {| fs := fs w; stdout := stdout w ++ [usage_line v]; trace := trace w |})
  /\ exit_status (fst (script_of v argv E w)) = 1.
Proof.
  intros Hlen. apply Nat.eqb_neq in Hlen.
  destruct v; simpl; unfold ById.script, BySlug.script; rewrite Hlen; split; reflexivity.
Qed.

(** ** Further properties of the scripts *)

(** X1: with any number of command-line arguments other than one, the
    [__main__] block of either script prints its usage line and ends the
    process with exit status 1: no request is made and the file system
    is not touched. *)
Theorem usage_error_exits (v : Variant) (argv : list string) (E : Env) (w : World) :
  length argv <> 2%nat ->
  script_of v argv E w
  = (Raise (SystemExit (ExitCode 1)),
     {| fs := fs w; stdout := stdout w ++ [usage_line v]; trace := trace w |})
  /\ exit_status (fst (script_of v argv E w)) = 1.
Proof. apply usage_error_exits_run. Qed.

Lemma usage_error_exits_witness :
  exit_status (fst (ById.script ["extract_negative_treatments.py"]
                      (stub_env ∅ 200 (inl roe_json)) empty_world)) = 1
  /\ exit_status (fst (BySlug.script ["legal_decision_negative_cases.py"; "foo"; "bar"]
                         (stub_env ∅ 200 (inl roe_json)) fixture_world)) = 1.
Proof.
  split.
  - apply (usage_error_exits IdBased ["extract_negative_treatments.py"]
             (stub_env ∅ 200 (inl roe_json)) empty_world).
    simpl. lia.
  - apply (usage_error_exits SlugBased ["legal_decision_negative_cases.py"; "foo"; "bar"]
             (stub_env ∅ 200 (inl roe_json)) fixture_world).
    simpl. lia.
Defined.

(** X2: with exactly one command-line argument the [__main__] block of
    the slug-based script runs [main] on that argument as it is, and the
    first thing the run prints is the fetching line with the slug. *)
Theorem slug_script_runs_main
    (E : Env) (w : World) (argv : list string) (slug : string) :
  length argv = 2%nat ->
  argv !! 1%nat = Some slug ->
  BySlug.script argv E w = BySlug.main slug E w
  /\ exists rest,
       stdout (snd (BySlug.script argv E w))
       = stdout w ++ ("Fetching legal decision text for slug: " +:+ slug) :: rest.
Proof.
  intros Hlen Harg.
  assert (Hrun : BySlug.script argv E w = BySlug.main slug E w).
  { unfold BySlug.script. rewrite Hlen, Harg. reflexivity. }
  split; [exact Hrun|]. rewrite Hrun.
  apply (main_stdout_prefix SlugBased E w slug).
Qed.

Lemma slug_script_runs_main_witness :
  BySlug.script ["legal_decision_negative_cases.py"; "foo"]
    (stub_env ∅ 200 (inl roe_json)) fixture_world
  = BySlug.main "foo" (stub_env ∅ 200 (inl roe_json)) fixture_world.
Proof.
  apply (slug_script_runs_main (stub_env ∅ 200 (inl roe_json)) fixture_world
           ["legal_decision_negative_cases.py"; "foo"] "foo"); reflexivity.
Defined.

(** X3: both fetch functions, [fetch_opinion] of the id-based script and
    [fetch_legal_decision] of the slug-based one, issue exactly one GET
    to their URL and change nothing else; they return the extracted text
    of the body unless the transport fails ([RequestException]) or the
    status is in 400..599 ([HTTPError] with the message of requests). *)
Theorem fetch_outcomes (E : Env) (w : World) (arg : string) :
  ById.fetch_opinion arg E w
  = (fetch_outcome E ("https://scholar.google.com/scholar_case?case=" +:+ arg),
     add_event (HttpGet ("https://scholar.google.com/scholar_case?case=" +:+ arg)) w)
  /\ BySlug.fetch_legal_decision arg E w
     = (fetch_outcome E ("https://casetext/" +:+ arg +:+ "/html"),
        add_event (HttpGet ("https://casetext/" +:+ arg +:+ "/html")) w).
Proof.
  split.
  - unfold ById.fetch_opinion. apply fetch_run.
  - unfold BySlug.fetch_legal_decision. apply fetch_run.
Qed.

(** X4: in the id-based variant, when the GET itself fails (no answer
    from the server), the run ends with that [RequestException] right
    after the fetching line: the model is not asked and the file system
    is as it was. *)
Theorem transport_failure_stops_run (E : Env) (w : World) (id msg : string) :
  http_server E (ById.url id) = inl msg ->
  ById.main id E w
  = (Raise (RequestException msg),
     {| fs := fs w;
        stdout := stdout w ++ ["Fetching legal decision text with id: " +:+ id];
        trace := trace w ++ [HttpGet (ById.url id)] |})
  /\ exit_status (fst (ById.main id E w)) = 1.
Proof.
  intros Hget.
  assert (Hrun : ById.main id E w
                 = (Raise (RequestException msg), after_resolver IdBased id w)).
  { change (ById.main id E w) with (main_of IdBased id E w).
    rewrite main_outcome. simpl. unfold fetch_outcome. now rewrite Hget. }
  rewrite Hrun. split; reflexivity.
Qed.

Lemma transport_failure_stops_run_witness :
  fst (ById.main "4242" offline_env rerun_world) = Raise (RequestException "Connection refused")
  /\ trace (snd (ById.main "4242" offline_env rerun_world)) = [HttpGet (ById.url "4242")].
Proof.
  destruct (transport_failure_stops_run offline_env rerun_world "4242" "Connection refused")
    as [Hrun _]; [reflexivity|].
  rewrite Hrun. split; reflexivity.
Defined.

(** X5: in the slug-based variant a failed lookup ends the run in
    [sys.exit] with a message that names what is missing (exit status 1),
    right after the fetching line: when [test_data] is absent or is not
    a directory, and when it holds no entry at the path looked up.  No
    request is made and the file system is as it was. *)
Theorem slug_lookup_failure_exits (E : Env) (w : World) (slug : string) :
  (fs w !! "test_data" <> Some Directory ->
   BySlug.main slug E w
   = (Raise (SystemExit (ExitMessage
        "Error: The directory 'test_data' does not exist or is not a directory.")),
      {| fs := fs w;
         stdout := stdout w ++ ["Fetching legal decision text for slug: " +:+ slug];
         trace := trace w |}))
  /\ (fs w !! "test_data" = Some Directory ->
      fs w !! os_path_join "test_data" (slug +:+ ".html") = None ->
      BySlug.main slug E w
      = (Raise (SystemExit (ExitMessage
           ("Error: No HTML file matching slug '" +:+ slug +:+ "' found in 'test_data'."))),
         {| fs := fs w;
            stdout := stdout w ++ ["Fetching legal decision text for slug: " +:+ slug];
            trace := trace w |})).
Proof.
  assert (Hw : after_resolver SlugBased slug w
               = {| fs := fs w;
                    stdout := stdout w ++ ["Fetching legal decision text for slug: " +:+ slug];
                    trace := trace w |}).
  { unfold after_resolver. simpl. now rewrite app_nil_r. }
  split.
  - intros Hd. change (BySlug.main slug E w) with (main_of SlugBased slug E w).
    rewrite main_outcome, Hw. simpl.
    destruct (fs w !! "test_data") as [[c|]|]; try congruence; reflexivity.
  - intros Hd Hf. change (BySlug.main slug E w) with (main_of SlugBased slug E w).
    rewrite main_outcome, Hw. simpl. rewrite Hd, Hf. reflexivity.
Qed.

Lemma slug_lookup_failure_exits_witness :
  exit_status (fst (BySlug.main "foo" (stub_env ∅ 200 (inl roe_json)) empty_world)) = 1
  /\ exit_status (fst (BySlug.main "foo" (stub_env ∅ 200 (inl roe_json)) flat_world)) = 1
  /\ fst (BySlug.main "bar" (stub_env ∅ 200 (inl roe_json)) fixture_world)
     = Raise (SystemExit (ExitMessage
         "Error: No HTML file matching slug 'bar' found in 'test_data'.")).
Proof.
  split; [|split].
  - destruct (slug_lookup_failure_exits (stub_env ∅ 200 (inl roe_json)) empty_world "foo")
      as [Hdir _].
    rewrite Hdir; [reflexivity|discriminate].
  - destruct (slug_lookup_failure_exits (stub_env ∅ 200 (inl roe_json)) flat_world "foo")
      as [Hdir _].
    rewrite Hdir; [reflexivity|discriminate].
  - destruct (slug_lookup_failure_exits (stub_env ∅ 200 (inl roe_json)) fixture_world "bar")
      as [_ Hfile].
    rewrite Hfile; reflexivity.
Defined.

(** X6: for a slug that does not start with a slash, [get_file_by_slug]
    returns the path [test_data/<slug>.html] exactly when [test_data] is
    a directory and something exists at that path; when [test_data] is
    missing or is a regular file it exits with the directory message,
    and when the entry is missing with the message that quotes the slug.
    It never changes the world. *)
Theorem relative_slug_lookup (E : Env) (w : World) (slug : string) :
  String.prefix "/" slug = false ->
  (fst (BySlug.get_file_by_slug slug E w) = Ok (fixture_path slug)
   <-> fs w !! "test_data" = Some Directory /\ is_Some (fs w !! fixture_path slug))
  /\ (fs w !! "test_data" <> Some Directory ->
      fst (BySlug.get_file_by_slug slug E w)
      = Raise (SystemExit (ExitMessage
          "Error: The directory 'test_data' does not exist or is not a directory.")))
  /\ (fs w !! "test_data" = Some Directory ->
      fs w !! fixture_path slug = None ->
      fst (BySlug.get_file_by_slug slug E w)
      = Raise (SystemExit (ExitMessage
          ("Error: No HTML file matching slug '" +:+ slug +:+ "' found in 'test_data'."))))
  /\ snd (BySlug.get_file_by_slug slug E w) = w.
Proof.
  intros Hrel.
  destruct (get_file_by_slug_exact_match E w slug) as (Hpath & Hrun & _).
  rewrite Hrel in Hpath. rewrite Hpath in Hrun. rewrite Hrun. simpl.
  split; [|split; [|split]].
  - split.
    + destruct (fs w !! "test_data") as [[c|]|]; try discriminate.
      destruct (fs w !! fixture_path slug) as [n|]; try discriminate. eauto.
    + intros [Hd [n Hn]]. now rewrite Hd, Hn.
  - intros Hd. destruct (fs w !! "test_data") as [[c|]|]; try congruence; reflexivity.
  - intros Hd Hf. now rewrite Hd, Hf.
  - reflexivity.
Qed.

Lemma relative_slug_lookup_witness :
  fst (BySlug.get_file_by_slug "foo" (stub_env ∅ 200 (inl "[]")) fixture_world)
  = Ok "test_data/foo.html"
  /\ fst (BySlug.get_file_by_slug "foo" (stub_env ∅ 200 (inl "[]")) flat_world)
     = Raise (SystemExit (ExitMessage
         "Error: The directory 'test_data' does not exist or is not a directory.")).
Proof.
  split.
  - destruct (relative_slug_lookup (stub_env ∅ 200 (inl "[]")) fixture_world "foo")
      as (Hiff & _); [reflexivity|].
    apply Hiff. split; [reflexivity|]. exists (RegularFile page). reflexivity.
  - destruct (relative_slug_lookup (stub_env ∅ 200 (inl "[]")) flat_world "foo")
      as (_ & Hdir & _); [reflexivity|].
    apply Hdir. discriminate.
Defined.

(** X7: [get_file_by_slug] tests existence only, so when the path it
    looks up is a directory it returns that path; [main] then fails in
    [extract_text_from_html] with an uncaught [IsADirectoryError], after
    the fetching line and before the model is asked. *)
Theorem directory_entry_ends_run (E : Env) (w : World) (slug : string) :
  fs w !! "test_data" = Some Directory ->
  fs w !! os_path_join "test_data" (slug +:+ ".html") = Some Directory ->
  BySlug.get_file_by_slug slug E w
  = (Ok (os_path_join "test_data" (slug +:+ ".html")), w)
  /\ BySlug.main slug E w
     = (Raise (IsADirectoryError (os_path_join "test_data" (slug +:+ ".html"))),
        {| fs := fs w;
           stdout := stdout w ++ ["Fetching legal decision text for slug: " +:+ slug];
           trace := trace w |}).
Proof.
  intros Hd Hf. split.
  - apply (get_file_by_slug_found E w slug Directory Hd Hf).
  - change (BySlug.main slug E w) with (main_of SlugBased slug E w).
    rewrite main_outcome. simpl. rewrite Hd, Hf.
    unfold after_resolver. simpl. now rewrite app_nil_r.
Qed.

Lemma directory_entry_ends_run_witness :
  fst (BySlug.main "foo" (stub_env ∅ 200 (inl roe_json)) nested_world)
  = Raise (IsADirectoryError "test_data/foo.html")
  /\ trace (snd (BySlug.main "foo" (stub_env ∅ 200 (inl roe_json)) nested_world)) = [].
Proof.
  destruct (directory_entry_ends_run (stub_env ∅ 200 (inl roe_json)) nested_world "foo")
    as [_ Hrun]; [reflexivity|reflexivity|].
  rewrite Hrun. split; reflexivity.
Defined.

(** X8: on its own [extract_text_from_html] raises [FileNotFoundError]
    for a path with nothing at it, but no run of [main] ever ends that
    way: [get_file_by_slug] has checked the very path that is read, and
    nothing runs in between. *)
Theorem main_never_file_not_found (E : Env) (w : World) :
  (forall path,
     fs w !! path = None ->
     BySlug.extract_text_from_html path E w = (Raise (FileNotFoundError path), w))
  /\ (forall slug path,
        fst (BySlug.main slug E w) <> Raise (FileNotFoundError path)).
Proof.
  split.
  - intros path Hp. unfold BySlug.extract_text_from_html, bind, read_text.
    now rewrite Hp.
  - intros slug path.
    change (BySlug.main slug E w) with (main_of SlugBased slug E w).
    rewrite main_outcome.
    destruct (resolve_outcome SlugBased E w slug) as [text|e] eqn:Hres.
    + destruct (model_endpoint E (request_of SlugBased E text)) as [t|msg];
        [|discriminate].
      rewrite result_writer_outcome.
      destruct (String.eqb t "[]"); [discriminate|].
      destruct (fs (after_model SlugBased E slug text w) !! "results.json") as [[c|]|];
        discriminate.
    + simpl. intros H. injection H as ->. simpl in Hres.
      destruct (fs w !! "test_data") as [[c|]|]; try discriminate.
      destruct (fs w !! os_path_join "test_data" (slug +:+ ".html")) as [[html|]|];
        discriminate.
Qed.

Lemma main_never_file_not_found_witness :
  BySlug.extract_text_from_html "test_data/bar.html" (stub_env ∅ 200 (inl "[]")) fixture_world
  = (Raise (FileNotFoundError "test_data/bar.html"), fixture_world).
Proof.
  apply (main_never_file_not_found (stub_env ∅ 200 (inl "[]")) fixture_world).
  reflexivity.
Defined.

(** X9: when the model answers something other than "[]" and
    results.json is a directory, both variants fail in [open] with an
    uncaught [IsADirectoryError]: the model has been asked, the FOUND
    line is not printed, and the file system is as it was. *)
Theorem blocked_result_file_ends_run
    (v : Variant) (E : Env) (w : World) (arg html t : string) :
  resolves v E w arg html ->
  model_endpoint E (request_of v E (soup_get_text E html)) = inl t ->
  t <> "[]" ->
  fs w !! "results.json" = Some Directory ->
  main_of v arg E w
  = (Raise (IsADirectoryError "results.json"),
     {| fs := fs w;
        stdout := stdout w ++ banner v arg;
        trace := trace w ++ requests_of v E arg (soup_get_text E html) |}).
Proof.
  intros Hres Hans Hne Hd.
  rewrite (main_until_writer v E w arg html t Hres Hans).
  now apply result_writer_blocked.
Qed.

Lemma blocked_result_file_ends_run_witness :
  fst (BySlug.main "foo" (stub_env ∅ 200 (inl roe_json)) blocked_world)
  = Raise (IsADirectoryError "results.json")
  /\ fs (snd (ById.main "4242" (stub_env ∅ 200 (inl roe_json)) blocked_world))
     = fs blocked_world.
Proof.
  split.
  - rewrite (blocked_result_file_ends_run SlugBased (stub_env ∅ 200 (inl roe_json))
               blocked_world "foo" page roe_json);
      [reflexivity|split; reflexivity|reflexivity|discriminate|reflexivity].
  - rewrite (blocked_result_file_ends_run IdBased (stub_env ∅ 200 (inl roe_json))
               blocked_world "4242" page roe_json);
      [reflexivity| |reflexivity|discriminate|reflexivity].
    eexists. split; [reflexivity|]. split; [reflexivity|simpl; lia].
Defined.

(** X10: whatever the outside answers, a run of [main] makes the
    requests of its resolver (one GET in the id-based variant, none in
    the slug-based one) and then at most one model request, which is sent
    only when the resolver and extractor have produced the text it
    carries.  So the slug-based variant never issues a GET, and no run
    asks the model twice. *)
Theorem run_requests_shape (v : Variant) (E : Env) (w : World) (arg : string) :
  let w' := snd (main_of v arg E w) in
  (trace w' = trace w ++ resolver_requests v arg
   \/ exists text,
        resolve_outcome v E w arg = Ok text
        /\ trace w' = trace w ++ resolver_requests v arg
                      ++ [ResponsesCreate (request_of v E text)])
  /\ urls_fetched (trace w')
     = urls_fetched (trace w) ++ match v with
                                 | IdBased => [ById.url arg]
                                 | SlugBased => []
                                 end
  /\ (length (models_requested (trace w')) <= S (length (models_requested (trace w))))%nat.
Proof.
  intros w'.
  assert (Hshape :
    trace w' = trace w ++ resolver_requests v arg
    \/ exists text,
         resolve_outcome v E w arg = Ok text
         /\ trace w' = trace w ++ resolver_requests v arg
                       ++ [ResponsesCreate (request_of v E text)]).
  { subst w'. rewrite main_outcome.
    destruct (resolve_outcome v E w arg) as [text|e]; [|now left].
    right. exists text. split; [reflexivity|].
    assert (Hreq : requests_of v E arg text
                   = resolver_requests v arg ++ [ResponsesCreate (request_of v E text)])
      by (destruct v; reflexivity).
    destruct (model_endpoint E (request_of v E text)) as [t|msg].
    - destruct (result_writer_effects v E (after_model v E arg text w) t) as [Ht _].
      simpl in Ht. rewrite Ht. now rewrite Hreq.
    - simpl. now rewrite Hreq. }
  split; [exact Hshape|split].
  - destruct Hshape as [Htr|(text & _ & Htr)]; rewrite Htr;
      unfold urls_fetched; rewrite !omap_app;
      destruct v; simpl; rewrite ?app_nil_r; reflexivity.
  - destruct Hshape as [Htr|(text & _ & Htr)]; rewrite Htr;
      unfold models_requested; rewrite !omap_app, !length_app;
      destruct v; simpl; lia.
Qed.

(** X11: a run of [main] that returns normally has asked the model and
    got an answer: in the id-based variant the answer was not "[]" and
    results.json now holds exactly it, so that variant never returns
    normally without having written the file; the slug-based variant
    also returns normally on "[]", with the file system as it was. *)
Theorem normal_return_means (v : Variant) (E : Env) (w : World) (arg : string) :
  fst (main_of v arg E w) = Ok tt ->
  exists text t,
    resolve_outcome v E w arg = Ok text
    /\ model_endpoint E (request_of v E text) = inl t
    /\ ((t <> "[]"
         /\ fs (snd (main_of v arg E w)) = <["results.json" := RegularFile t]> (fs w)
         /\ last (stdout (snd (main_of v arg E w))) = Some t)
        \/ (v = SlugBased /\ t = "[]" /\ fs (snd (main_of v arg E w)) = fs w)).
Proof.
  rewrite main_outcome.
  destruct (resolve_outcome v E w arg) as [text|e] eqn:Hres; [|discriminate].
  destruct (model_endpoint E (request_of v E text)) as [t|msg] eqn:Hans; [|discriminate].
  rewrite result_writer_outcome.
  destruct (String.eqb_spec t "[]") as [->|Hne].
  - destruct v; [discriminate|]. intros _. exists text, "[]".
    split; [reflexivity|]. split; [exact Hans|]. right. repeat split.
  - assert (Hlast : forall l : list string, last (l ++ [found_line; t]) = Some t).
    { intros l. change [found_line; t] with ([found_line] ++ [t]).
      rewrite app_assoc. apply last_snoc. }
    destruct (fs (after_model v E arg text w) !! "results.json") as [[c|]|];
      try discriminate; intros _; exists text, t; (split; [reflexivity|]);
      (split; [exact Hans|]); left; cbn [fst snd fs stdout after_model];
      auto.
Qed.

Lemma normal_return_means_witness :
  exists text t,
    model_endpoint (stub_env ∅ 200 (inl roe_json))
      (request_of IdBased (stub_env ∅ 200 (inl roe_json)) text) = inl t
    /\ fs (snd (ById.main "4242" (stub_env ∅ 200 (inl roe_json)) empty_world))
       = <["results.json" := RegularFile t]> (fs empty_world).
Proof.
  destruct (normal_return_means IdBased (stub_env ∅ 200 (inl roe_json)) empty_world "4242")
    as (text & t & _ & Hans & [(_ & Hfs & _)|(Hv & _)]).
  - reflexivity.
  - exists text, t. split; assumption.
  - discriminate Hv.
Defined.

Lemma fixture_lookup_not_result_file (slug : string) :
  os_path_join "test_data" (slug +:+ ".html") <> "results.json".
Proof.
  rewrite os_path_join_test_data.
  destruct (String.prefix "/" slug) eqn:Hp.
  - destruct slug as [|a slug]; [discriminate Hp|].
    rewrite prefix_slash_cons in Hp.
    destruct (Ascii.ascii_dec "/"%char a) as [<-|]; [|discriminate Hp].
    discriminate.
  - unfold fixture_path. discriminate.
Qed.

(** The resolver reads nothing that a run writes. *)
Lemma resolve_outcome_frame (v : Variant) (E : Env) (w w' : World) (arg : string) :
  (forall p, p <> "results.json" -> fs w' !! p = fs w !! p) ->
  resolve_outcome v E w' arg = resolve_outcome v E w arg.
Proof.
  intros Hsame. destruct v; [reflexivity|]. simpl.
  rewrite (Hsame "test_data") by discriminate.
  rewrite (Hsame _ (fixture_lookup_not_result_file arg)). reflexivity.
Qed.

Lemma resolves_frame (v : Variant) (E : Env) (w w' : World) (arg html : string) :
  (forall p, p <> "results.json" -> fs w' !! p = fs w !! p) ->
  resolves v E w arg html -> resolves v E w' arg html.
Proof.
  intros Hsame. destruct v; [exact (fun H => H)|]. simpl.
  rewrite (Hsame "test_data") by discriminate.
  rewrite (Hsame _ (fixture_lookup_not_result_file arg)). exact (fun H => H).
Qed.

(** X12: two runs in a row that both find cases, with whatever
    arguments and answers: the second returns normally and the file
    system after it is the one before both runs with results.json
    holding exactly the second answer; nothing of the first answer is
    left. *)
Theorem second_found_run_replaces_first
    (v : Variant) (E1 E2 : Env) (w : World) (arg1 arg2 html1 html2 t1 t2 : string) :
  resolves v E1 w arg1 html1 ->
  model_endpoint E1 (request_of v E1 (soup_get_text E1 html1)) = inl t1 ->
  t1 <> "[]" ->
  resolves v E2 w arg2 html2 ->
  model_endpoint E2 (request_of v E2 (soup_get_text E2 html2)) = inl t2 ->
  t2 <> "[]" ->
  fs w !! "results.json" <> Some Directory ->
  let w1 := snd (main_of v arg1 E1 w) in
  let w2 := snd (main_of v arg2 E2 w1) in
  fst (main_of v arg2 E2 w1) = Ok tt
  /\ fs w2 = <["results.json" := RegularFile t2]> (fs w)
  /\ fs w2 !! "results.json" = Some (RegularFile t2).
Proof.
  intros Hres1 Hans1 Hne1 Hres2 Hans2 Hne2 Hnd w1 w2.
  assert (Hfs1 : fs w1 = <["results.json" := RegularFile t1]> (fs w)).
  { subst w1. now rewrite (main_found v E1 w arg1 html1 t1 Hres1 Hans1 Hne1 Hnd). }
  assert (Hres2' : resolves v E2 w1 arg2 html2).
  { apply (resolves_frame v E2 w w1); [|exact Hres2].
    intros p Hp. rewrite Hfs1. now apply lookup_insert_ne. }
  assert (Hnd1 : fs w1 !! "results.json" <> Some Directory).
  { rewrite Hfs1, lookup_insert_eq. discriminate. }
  subst w2.
  rewrite (main_found v E2 w1 arg2 html2 t2 Hres2' Hans2 Hne2 Hnd1). simpl.
  rewrite Hfs1, insert_insert_eq.
  split; [reflexivity|]. split; [reflexivity|apply lookup_insert_eq].
Qed.

Lemma second_found_run_replaces_first_witness :
  fs (snd (BySlug.main "foo" (stub_env ∅ 200 (inl lochner_json))
             (snd (BySlug.main "foo" (stub_env ∅ 200 (inl roe_json)) fixture_world))))
    !! "results.json"
  = Some (RegularFile lochner_json).
Proof.
  apply (second_found_run_replaces_first SlugBased
           (stub_env ∅ 200 (inl roe_json)) (stub_env ∅ 200 (inl lochner_json))
           fixture_world "foo" "foo" page page roe_json lochner_json).
  - split; reflexivity.
  - reflexivity.
  - discriminate.
  - split; reflexivity.
  - reflexivity.
  - discriminate.
  - discriminate.
Defined.

(** X13: running [main] again on the world the first run left, with the
    outside answering as before, ends the same way and leaves the file
    system exactly as the first run left it: a run reads nothing of what
    it writes. *)
Theorem rerun_changes_nothing (v : Variant) (E : Env) (w : World) (arg : string) :
  let w1 := snd (main_of v arg E w) in
  fst (main_of v arg E w1) = fst (main_of v arg E w)
  /\ fs (snd (main_of v arg E w1)) = fs w1.
Proof.
  intros w1. subst w1.
  pose proof (main_outcome v E w arg) as H1.
  assert (Hframe : forall (W : World) (m : gmap string FsNode),
            fs W = m ->
            (forall p, p <> "results.json" -> m !! p = fs w !! p) ->
            resolve_outcome v E W arg = resolve_outcome v E w arg).
  { intros W m <- Hm. now apply resolve_outcome_frame. }
  destruct (resolve_outcome v E w arg) as [text|e] eqn:Hres.
  - destruct (model_endpoint E (request_of v E text)) as [t|msg] eqn:Hans.
    + rewrite result_writer_outcome in H1.
      destruct (String.eqb t "[]") eqn:Heq.
      * rewrite H1. simpl snd. rewrite main_outcome.
        rewrite (Hframe _ (fs w)) by (reflexivity || (intros; reflexivity)).
        rewrite Hans, result_writer_outcome, Heq. split; reflexivity.
      * simpl fs in H1.
        destruct (fs w !! "results.json") as [[c|]|] eqn:Hl;
          rewrite H1; simpl snd; rewrite main_outcome.
        -- rewrite (Hframe _ (<["results.json" := RegularFile t]> (fs w)))
             by (reflexivity || (intros p Hp; now apply lookup_insert_ne)).
           rewrite Hans, result_writer_outcome, Heq. simpl fs.
           rewrite lookup_insert_eq. simpl. rewrite insert_insert_eq.
           split; reflexivity.
        -- rewrite (Hframe _ (fs w)) by (reflexivity || (intros; reflexivity)).
           rewrite Hans, result_writer_outcome, Heq. simpl fs. rewrite Hl.
           split; reflexivity.
        -- rewrite (Hframe _ (<["results.json" := RegularFile t]> (fs w)))
             by (reflexivity || (intros p Hp; now apply lookup_insert_ne)).
           rewrite Hans, result_writer_outcome, Heq. simpl fs.
           rewrite lookup_insert_eq. simpl. rewrite insert_insert_eq.
           split; reflexivity.
    + rewrite H1. simpl snd. rewrite main_outcome.
      rewrite (Hframe _ (fs w)) by (reflexivity || (intros; reflexivity)).
      rewrite Hans. split; reflexivity.
  - rewrite H1. simpl snd. rewrite main_outcome.
    rewrite (Hframe _ (fs w)) by (reflexivity || (intros; reflexivity)).
    split; reflexivity.
Qed.

(** X14: the two scripts do not send the same request.  Their four
    system messages and their sampling parameters are the same, but the
    instruction blocks differ in one sentence, so the prompt of the
    id-based variant is 18 characters longer for the same opinion text,
    and whatever the two opinion texts and the model chosen, the prompts
    and hence the requests differ. *)
Theorem variants_send_different_prompts (model t1 t2 : string) :
  ById.prompt t1 <> BySlug.prompt t2
  /\ ById.request model t1 <> BySlug.request t2
  /\ String.length (ById.prompt t1) = (String.length (BySlug.prompt t1) + 18)%nat
  /\ take 4 (req_input (ById.request model t1)) = take 4 (req_input (BySlug.request t2))
  /\ req_temperature (ById.request model t1) = req_temperature (BySlug.request t2)
  /\ req_top_p (ById.request model t1) = req_top_p (BySlug.request t2).
Proof.
  assert (Hprompt : ById.prompt t1 <> BySlug.prompt t2).
  { unfold ById.prompt, BySlug.prompt. intros H. vm_compute in H. discriminate H. }
  split; [exact Hprompt|]. split; [|split; [|repeat split]].
  - intros H. apply Hprompt.
    apply (f_equal (fun r => content <$> last (req_input r))) in H.
    simpl in H. congruence.
  - unfold ById.prompt, BySlug.prompt. rewrite !string_length_app.
    change (String.length ById.instructions)
      with (String.length BySlug.instructions + 18)%nat.
    lia.
Qed.

(** X15: the module-level key check of both scripts.  When
    OPENAI_API_KEY is in the environment, even as the empty string,
    nothing is asked and nothing is read: the process is the [__main__]
    block.  When it is not, the prompt is written and one line of
    standard input is taken as the key, whatever it is, before the
    argument count is looked at: with a wrong argument count the usage
    line comes after the prompt, and at end of input the process dies
    on the [input] call without reaching the [__main__] block. *)
Theorem api_key_step (v : Variant) (argv stdin : list string) (E : Env) (w : World) :
  (forall key,
     environ E !! "OPENAI_API_KEY" = Some key ->
     load_api_key stdin E w = (Imported key stdin, w)
     /\ process v argv stdin E w
        = (Ended (fst (script_of v argv E w)), snd (script_of v argv E w)))
  /\ (environ E !! "OPENAI_API_KEY" = None ->
      process v argv [] E w = (DiedAtImport, add_stdout api_key_prompt w)
      /\ forall line rest,
           load_api_key (line :: rest) E w
           = (Imported line rest, add_stdout api_key_prompt w)
           /\ process v argv (line :: rest) E w
              = (Ended (fst (script_of v argv E (add_stdout api_key_prompt w))),
                 snd (script_of v argv E (add_stdout api_key_prompt w)))
           /\ (length argv <> 2%nat ->
               process v argv (line :: rest) E w
               = (Ended (Raise (SystemExit (ExitCode 1))),
                  {| fs := fs w;
                     stdout := stdout w ++ [api_key_prompt; usage_line v];
                     trace := trace w |}))).
Proof.
  split.
  - intros key Hkey. unfold process, load_api_key. rewrite Hkey.
    split; [reflexivity|]. now destruct (script_of v argv E w).
  - intros Hkey. unfold process, load_api_key. rewrite Hkey. simpl.
    split; [reflexivity|]. intros line rest.
    split; [reflexivity|]. split.
    + now destruct (script_of v argv E (add_stdout api_key_prompt w)).
    + intros Hlen.
      destruct (usage_error_exits_run v argv E (add_stdout api_key_prompt w) Hlen) as [-> _].
      simpl. now rewrite <- app_assoc.
Qed.

Lemma api_key_step_witness :
  process IdBased ["extract_negative_treatments.py"] ["sk-typed"]
    (stub_env {[ "OPENAI_API_KEY" := "" ]} 200 (inl roe_json)) empty_world
  = (Ended (Raise (SystemExit (ExitCode 1))),
     add_stdout (usage_line IdBased) empty_world)
  /\ process SlugBased ["legal_decision_negative_cases.py"] []
       (stub_env ∅ 200 (inl roe_json)) empty_world
     = (DiedAtImport, add_stdout api_key_prompt empty_world)
  /\ stdout (snd (process SlugBased ["legal_decision_negative_cases.py"] ["sk-typed"]
                    (stub_env ∅ 200 (inl roe_json)) empty_world))
     = [api_key_prompt; usage_line SlugBased].
Proof.
  split; [|split].
  - destruct (api_key_step IdBased ["extract_negative_treatments.py"] ["sk-typed"]
                (stub_env {[ "OPENAI_API_KEY" := "" ]} 200 (inl roe_json)) empty_world)
      as [Hset _].
    destruct (Hset "") as [_ Hrun]; [reflexivity|]. rewrite Hrun. reflexivity.
  - destruct (api_key_step SlugBased ["legal_decision_negative_cases.py"] []
                (stub_env ∅ 200 (inl roe_json)) empty_world)
      as [_ Hunset].
    destruct Hunset as [Heof _]; [reflexivity|]. exact Heof.
  - destruct (api_key_step SlugBased ["legal_decision_negative_cases.py"] []
                (stub_env ∅ 200 (inl roe_json)) empty_world)
      as [_ Hunset].
    destruct Hunset as [_ Hline]; [reflexivity|].
    destruct (Hline "sk-typed" []) as (_ & _ & Husage).
    rewrite Husage; [reflexivity|simpl; lia].
Defined.
